(** * Signers of nucypher/blockchain/eth/signers.py

    A shallow embedding of the [Signer] contract and of its three backends
    ([Web3Signer], [LocalSigner], [ClefSigner]).  A signer instance is its
    attribute dictionary; methods are computations in a state-and-exception
    monad that also records every request issued to a collaborator (the
    connected client, the external signing daemon). *)

From stdpp Require Import gmap strings list pretty.
From Stdlib Require Import HexString.

Local Open Scope string_scope.
Set Warnings "-register-all".

(** ** Python values *)

Inductive pyval : Type :=
| VNone
| VBool (b : bool)
| VInt (n : Z)
| VStr (s : string)
| VBytes (s : string)
| VList (l : list pyval)
| VDict (d : list (string * pyval))
| VFunc (qualname : string)
| VObj (name : string).

(** Truth value testing: [None], [False], zero and empty containers are
    false; function objects and other objects are true. *)
Definition truthy (v : pyval) : bool :=
  match v with
  | VNone => false
  | VBool b => b
  | VInt n => negb (n =? 0)%Z
  | VStr s | VBytes s => negb (String.eqb s EmptyString)
  | VList l => negb (bool_decide (l = []))
  | VDict d => negb (bool_decide (d = []))
  | VFunc _ | VObj _ => true
  end.

(** Truth value of an optional [str] argument whose default is [None]. *)
Definition truthy_opt (o : option string) : bool :=
  match o with
  | None => false
  | Some s => truthy (VStr s)
  end.

(** ** Exceptions *)

Inductive exn : Type :=
| AccountLocked (msg : string)
| ValueError (msg : string)
| TypeError (msg : string)
| AttributeError (name : string)
| KeyError (key : string)
| NotImplementedError
| FileNotFoundError (path : string)
| OtherError (cls msg : string).

Inductive outcome (A : Type) : Type :=
| Return (a : A)
| Raise (e : exn).
Arguments Return {A} a.
Arguments Raise {A} e.

(** ** Requests to collaborators *)

Inductive call : Type :=
| client_unlock_account (address password : string) (duration : option Z)
| client_lock_account (address : string)
| client_sign_message (account : string) (message : pyval)
| client_sign_transaction (transaction : list (string * pyval))
| request_blocking (method : string) (params : list pyval).

(** An entry of the client's wallet list: [w['url']] and the
    [account['address']] of every entry of [w['accounts']]. *)
Record wallet : Type := Wallet { w_url : string; w_accounts : list string }.

(** What lies outside signers.py: the collaborators' answers and the
    library functions the module imports. *)
Class Env : Type := {
  (* [self.__client.wallets]; [None] when the client has no such attribute *)
  wallets : option (list wallet);
  (* [BlockchainInterfaceFactory.get_interface().client] *)
  get_interface_client : outcome pyval;
  (* the answer of the client or of the daemon to a request *)
  respond : call → outcome pyval;
  (* [open(path).read()] *)
  read_file : string → outcome string;
  (* [w3.eth.account.decrypt(encrypted_key, password)] *)
  decrypt : string → string → outcome pyval;
  (* [w3.eth.account.sign_transaction(transaction_dict, private_key)] *)
  account_sign_transaction : list (string * pyval) → pyval → outcome pyval;
  to_checksum_address : string → outcome string;
  to_normalized_address : pyval → outcome pyval;
  toHex : pyval → outcome pyval;
  HexBytes : pyval → outcome pyval;
  (* the text of the error [apply_formatters_to_dict] raises for an item
     and a key whose formatter rejected the item *)
  could_not_format : pyval → string → string;
  (* [BlockchainInterface.NULL_ADDRESS] *)
  NULL_ADDRESS : string
}.

(** ** The monad of methods *)

Record store : Type := Store {
  self : gmap string pyval;   (* the instance's attribute dictionary *)
  trace : list call           (* requests issued so far, oldest first *)
}.

Definition M (A : Type) : Type := store → outcome A * store.

Definition ret {A} (a : A) : M A := λ σ, (Return a, σ).
Definition raise {A} (e : exn) : M A := λ σ, (Raise e, σ).
Definition bind {A B} (m : M A) (k : A → M B) : M B :=
  λ σ, match m σ with
       | (Return a, σ') => k a σ'
       | (Raise e, σ') => (Raise e, σ')
       end.
Definition lift {A} (o : outcome A) : M A := λ σ, (o, σ).

(** [try: m  except Exception as e: h e] *)
Definition try_except {A} (m : M A) (h : exn → M A) : M A :=
  λ σ, match m σ with
       | (Raise e, σ') => h e σ'
       | r => r
       end.

Declare Scope py_scope.
Delimit Scope py_scope with py.
Notation "x <- m ;; k" := (bind m (λ x, k))
  (at level 100, m at next level, right associativity) : py_scope.
Notation "m ;;; k" := (bind m (λ _, k))
  (at level 100, right associativity) : py_scope.
Local Open Scope py_scope.

Definition getattr (name : string) : M pyval :=
  λ σ, match self σ !! name with
       | Some v => (Return v, σ)
       | None => (Raise (AttributeError name), σ)
       end.

Definition setattr (name : string) (v : pyval) : M unit :=
  λ σ, (Return (), Store (<[name := v]> (self σ)) (trace σ)).

(** A request to a collaborator is recorded, then answered. *)
Definition invoke `{Env} (c : call) : M pyval :=
  λ σ, (respond c, Store (self σ) (trace σ ++ [c])).

(** Private name mangling: in the body of [class cls], the identifier
    [__name] of [self.__name] stands for the attribute [_cls__name]. *)
Definition mangle (cls name : string) : string := "_" +:+ cls +:+ name.

(** [d[key]] and [d.key] on a mapping-like result. *)
Definition assoc {A} (key : string) (d : list (string * A)) : option A :=
  snd <$> List.find (λ kv, String.eqb key (fst kv)) d.

Definition getitem (v : pyval) (key : string) : outcome pyval :=
  match v with
  | VDict d => match assoc key d with
               | Some x => Return x
               | None => Raise (KeyError key)
               end
  | _ => Raise (TypeError "object is not subscriptable")
  end.

Definition getfield (v : pyval) (name : string) : outcome pyval :=
  match v with
  | VDict d => match assoc name d with
               | Some x => Return x
               | None => Raise (AttributeError name)
               end
  | _ => Raise (AttributeError name)
  end.

Fixpoint mapM {A B} (f : A → outcome B) (l : list A) : outcome (list B) :=
  match l with
  | [] => Return []
  | x :: l' =>
      match f x with
      | Raise e => Raise e
      | Return y =>
          match mapM f l' with
          | Raise e => Raise e
          | Return ys => Return (y :: ys)
          end
      end
  end.

(** ** class Signer(ABC) *)

Module Signer.

Definition cls : string := "Signer".

Definition __init__ : M unit :=
  setattr "log" (VObj "Logger") ;;;
  setattr (mangle cls "__unlocked") (VBool false).

(** The [is_unlocked] property. *)
Definition is_unlocked : M pyval :=
  getattr (mangle cls "__unlocked").

Definition locked_message (account : string) : string :=
  "Failed to unlock account " +:+ account.

End Signer.

(** ** class Web3Signer(Signer) *)

Module Web3Signer.

Definition cls : string := "Web3Signer".

Definition accounts : M pyval := ret VNone.

Definition __init__ `{Env} (client : pyval) : M unit :=
  Signer.__init__ ;;;
  client <- (if negb (truthy client) then lift get_interface_client
             else ret client) ;;
  setattr (mangle cls "__client") client.

Definition HW_WALLET_URL_PREFIXES : list string := ["trezor"; "ledger"].

Definition startswith (s : string) (prefixes : list string) : bool :=
  existsb (λ p, String.prefix p s) prefixes.

(** The body of [is_device(self, account)], declared [@staticmethod]
    with an explicit [self] parameter: the [try] reads
    [self.__client.wallets], an [AttributeError] there (no client
    attribute, or a client without wallets) answers [False], and the
    [else] branch goes on with the wallets. *)
Definition is_device `{Env} (account : string) : M pyval :=
  found <-
    try_except
      (_ <- getattr (mangle cls "__client") ;;
       match wallets with
       | Some ws => ret (Some ws)
       | None => raise (AttributeError "wallets")
       end)
      (λ e, match e with
            | AttributeError _ => ret None
            | _ => raise e
            end) ;;
  match found with
  | None => ret (VBool false)
  | Some ws =>
      let hw_accounts :=
        w_accounts <$> List.filter (λ w, startswith (w_url w) HW_WALLET_URL_PREFIXES) ws in
      hw_addresses <- lift (mapM to_checksum_address (concat hw_accounts)) ;;
      ret (VBool (bool_decide (account ∈ hw_addresses)))
  end.

(** The expression [self.is_device], as the two methods below write it:
    an attribute reference, not a call.  No method assigns an instance
    attribute of that name, so the lookup finds the [@staticmethod] in
    the class and yields its underlying function object. *)
Definition self_is_device : M pyval := ret (VFunc "Web3Signer.is_device").

Definition unlock_account `{Env} (account password : string) (duration : option Z)
  : M pyval :=
  dev <- self_is_device ;;
  unlocked <- (if truthy dev then ret (VBool true)
               else _ <- getattr (mangle cls "__client") ;;
                    invoke (client_unlock_account account password duration)) ;;
  setattr (mangle cls "__unlocked") unlocked ;;;
  getattr (mangle cls "__unlocked").

Definition lock_account `{Env} (account : string) : M pyval :=
  dev <- self_is_device ;;
  (if truthy dev then ret ()
   else _ <- getattr (mangle cls "__client") ;;
        _ <- invoke (client_lock_account account) ;;
        ret ()) ;;;
  setattr (mangle cls "__unlocked") (VBool false) ;;;
  getattr (mangle cls "__unlocked").

Definition sign_message `{Env} (account : string) (message : pyval)
    (kwargs : list (string * pyval)) : M pyval :=
  u <- Signer.is_unlocked ;;
  if negb (truthy u) then raise (AccountLocked (Signer.locked_message account))
  else
    _ <- getattr (mangle cls "__client") ;;
    signature <- invoke (client_sign_message account message) ;;
    lift (HexBytes signature).

Definition sign_transaction `{Env} (account : string)
    (unsigned_transaction : list (string * pyval)) : M pyval :=
  u <- Signer.is_unlocked ;;
  if negb (truthy u) then raise (AccountLocked (Signer.locked_message account))
  else
    _ <- getattr (mangle cls "__client") ;;
    invoke (client_sign_transaction unsigned_transaction).

End Web3Signer.

(** ** class LocalSigner(Signer) *)

Module LocalSigner.

Definition cls : string := "LocalSigner".

Definition __init__ (keyfile : string) : M unit :=
  Signer.__init__ ;;;
  setattr (mangle cls "__key") VNone ;;;
  setattr (mangle cls "__keyfile") (VStr keyfile).

(** [open(self.__keyfile)] followed by [keyfile.read()]. *)
Definition open_read `{Env} (path : pyval) : M string :=
  match path with
  | VStr p => lift (read_file p)
  | _ => raise (TypeError "expected str, bytes or os.PathLike object")
  end.

Definition __import_keyfile `{Env} (password : string) : M pyval :=
  private_key <-
    try_except
      (path <- getattr (mangle cls "__keyfile") ;;
       encrypted_key <- open_read path ;;
       lift (decrypt encrypted_key password))
      (λ e, match e with
            | FileNotFoundError _ => raise e
            | _ => raise e
            end) ;;
  setattr (mangle cls "__key") private_key ;;;
  ret (VBool true).

Definition accounts : M pyval := ret VNone.

Definition unlock_account `{Env} (account password : string) (duration : option Z)
  : M pyval :=
  unlocked <- __import_keyfile password ;;
  setattr (mangle cls "__unlocked") unlocked ;;;
  getattr (mangle cls "__unlocked").

Definition lock_account (account : string) : M pyval :=
  setattr (mangle cls "__key") VNone ;;;
  setattr (mangle cls "__unlocked") (VBool false) ;;;
  getattr (mangle cls "__unlocked").

Definition sign_transaction `{Env} (account : string)
    (unsigned_transaction : list (string * pyval)) : M pyval :=
  u <- Signer.is_unlocked ;;
  if negb (truthy u) then raise (AccountLocked (Signer.locked_message account))
  else
    key <- getattr (mangle cls "__key") ;;
    signed_transaction <- lift (account_sign_transaction unsigned_transaction key) ;;
    lift (getitem signed_transaction "rawTransaction").

Definition sign_message (account : string) (message : pyval)
    (kwargs : list (string * pyval)) : M pyval :=
  ret VNone.

End LocalSigner.

(** ** eth_utils.apply_formatters_to_dict

    The library function, by its documented behaviour: every item of
    [value] whose key has a formatter is replaced by the formatter's
    result, the other items are kept, in the order of [value].  A
    [TypeError] or [ValueError] of a formatter is raised anew, in the
    same class, with the library's own text for the item and the key;
    any other exception passes through. *)
Definition reraise_formatting `{Env} (key : string) (item : pyval) (e : exn) : exn :=
  match e with
  | TypeError _ => TypeError (could_not_format item key)
  | ValueError _ => ValueError (could_not_format item key)
  | _ => e
  end.

Definition format_item `{Env} (formatters : list (string * (pyval → outcome pyval)))
    (key : string) (item : pyval) : outcome pyval :=
  match assoc key formatters with
  | Some f => match f item with
              | Return v => Return v
              | Raise e => Raise (reraise_formatting key item e)
              end
  | None => Return item
  end.

Fixpoint apply_formatters_to_dict `{Env}
    (formatters : list (string * (pyval → outcome pyval)))
    (value : list (string * pyval)) : outcome (list (string * pyval)) :=
  match value with
  | [] => Return []
  | (key, item) :: rest =>
      match format_item formatters key item with
      | Raise e => Raise e
      | Return v =>
          match apply_formatters_to_dict formatters rest with
          | Raise e => Raise e
          | Return rest' => Return ((key, v) :: rest')
          end
      end
  end.

(** ** class ClefSigner(Signer) *)

Module ClefSigner.

Definition cls : string := "ClefSigner".

Definition SIGN_DATA_FOR_VALIDATOR : string := "data/validator".
Definition SIGN_DATA_FOR_CLIQUE : string := "application/clique".
Definition SIGN_DATA_FOR_ECRECOVER : string := "text/plain".

Definition DEFAULT_CONTENT_TYPE : string := SIGN_DATA_FOR_ECRECOVER.

Definition SIGN_DATA_CONTENT_TYPES : list string :=
  [SIGN_DATA_FOR_VALIDATOR; SIGN_DATA_FOR_CLIQUE; SIGN_DATA_FOR_ECRECOVER].

Definition __init__ (w3 : pyval) : M unit :=
  Signer.__init__ ;;;
  setattr "w3" w3.

Definition is_connected : M pyval := ret (VBool true).

Definition checksum_item `{Env} (addr : pyval) : outcome pyval :=
  match addr with
  | VStr a => match to_checksum_address a with
              | Return c => Return (VStr c)
              | Raise e => Raise e
              end
  | _ => Raise (TypeError "unsupported address type")
  end.

Definition accounts `{Env} : M pyval :=
  _ <- getattr "w3" ;;
  normalized_addresses <- invoke (request_blocking "account_list" []) ;;
  match normalized_addresses with
  | VList l =>
      checksum_addresses <- lift (mapM checksum_item l) ;;
      ret (VList checksum_addresses)
  | _ => raise (TypeError "object is not iterable")
  end.

Definition formatters `{Env} : list (string * (pyval → outcome pyval)) :=
  [("nonce", toHex); ("gasPrice", toHex); ("gas", toHex); ("value", toHex);
   ("chainId", toHex); ("from", to_normalized_address)].

Definition sign_transaction `{Env} (account : string)
    (transaction : list (string * pyval)) : M pyval :=
  transaction <- lift (apply_formatters_to_dict formatters transaction) ;;
  _ <- getattr "w3" ;;
  signed <- invoke (request_blocking "account_signTransaction" [VDict transaction]) ;;
  raw <- lift (getfield signed "raw") ;;
  lift (HexBytes raw).

(** [repr] of a tuple of plain strings, as an f-string prints it. *)
Definition repr_str (s : string) : string := "'" +:+ s +:+ "'".
Definition repr_tuple (l : list string) : string :=
  "(" +:+ String.concat ", " (repr_str <$> l) +:+ ")".

Definition invalid_content_type (content_type : string) : string :=
  content_type +:+ " is not a valid content type. " +:+
  "Valid types are " +:+ repr_tuple SIGN_DATA_CONTENT_TYPES.

Definition validator_required : string :=
  "When using the intended validator type, a validator address is required.".

Definition sign_message `{Env} (account : string) (message : pyval)
    (content_type validator_address : option string)
    (kwargs : list (string * pyval)) : M pyval :=
  content_type <-
    (if negb (truthy_opt content_type) then ret DEFAULT_CONTENT_TYPE
     else
       let ct := default EmptyString content_type in
       if negb (bool_decide (ct ∈ SIGN_DATA_CONTENT_TYPES))
       then raise (ValueError (invalid_content_type ct))
       else ret ct) ;;
  data <-
    (if String.eqb content_type SIGN_DATA_FOR_VALIDATOR then
       if negb (truthy_opt validator_address)
          || bool_decide (validator_address = Some NULL_ADDRESS)
       then raise (ValueError validator_required)
       else ret (VList [VStr (default EmptyString validator_address); message])
     else if String.eqb content_type SIGN_DATA_FOR_ECRECOVER then
       ret message
     else raise NotImplementedError) ;;
  _ <- getattr "w3" ;;
  invoke (request_blocking "account_signData" [VStr content_type; VStr account; data]).

Definition unlock_account (address password : string) (duration : option Z)
  : M pyval := ret (VBool true).

Definition lock_account (address : string) : M pyval := ret (VBool true).

End ClefSigner.

(** ** The contract, dispatched on the backend *)

Inductive backend : Type := Web3 | Local | Clef.

Definition unlock_account `{Env} (b : backend)
    (account password : string) (duration : option Z) : M pyval :=
  match b with
  | Web3 => Web3Signer.unlock_account account password duration
  | Local => LocalSigner.unlock_account account password duration
  | Clef => ClefSigner.unlock_account account password duration
  end.

Definition lock_account `{Env} (b : backend) (account : string) : M pyval :=
  match b with
  | Web3 => Web3Signer.lock_account account
  | Local => LocalSigner.lock_account account
  | Clef => ClefSigner.lock_account account
  end.

Definition sign_transaction `{Env} (b : backend) (account : string)
    (transaction : list (string * pyval)) : M pyval :=
  match b with
  | Web3 => Web3Signer.sign_transaction account transaction
  | Local => LocalSigner.sign_transaction account transaction
  | Clef => ClefSigner.sign_transaction account transaction
  end.

(** Keyword arguments other than Clef's two named ones end up in
    [**kwargs], which no backend reads. *)
Definition sign_message `{Env} (b : backend) (account : string) (message : pyval)
    (content_type validator_address : option string)
    (kwargs : list (string * pyval)) : M pyval :=
  let named (k : string) (o : option string) : list (string * pyval) :=
    match o with Some s => [(k, VStr s)] | None => [] end in
  let all := (named "content_type" content_type
              ++ named "validator_address" validator_address ++ kwargs)%list in
  match b with
  | Web3 => Web3Signer.sign_message account message all
  | Local => LocalSigner.sign_message account message all
  | Clef => ClefSigner.sign_message account message content_type validator_address kwargs
  end.

(** [Signer.__init__] followed by the backend's own constructor body. *)
Definition new `{Env} (b : backend) (arg : pyval) : M unit :=
  match b with
  | Web3 => Web3Signer.__init__ arg
  | Local => match arg with
             | VStr keyfile => LocalSigner.__init__ keyfile
             | _ => raise (TypeError "keyfile: str")
             end
  | Clef => ClefSigner.__init__ arg
  end.

Definition empty_store : store := Store ∅ [].

(** The reading of the [is_unlocked] property in a store. *)
Definition reads_unlocked (σ : store) : option bool :=
  match Signer.is_unlocked σ with
  | (Return v, _) => Some (truthy v)
  | _ => None
  end.

(** ** A test double for the collaborators

    A client with one hardware wallet and one keystore wallet, a keyfile
    at [keyfile.json] that decrypts under the password [secret], and a
    daemon that answers every request.  Its [toHex] converts integers
    and, as [eth_utils.to_hex] does with a positional [str], rejects
    strings with a [TypeError]. *)

Definition lower_ascii (c : Ascii.ascii) : Ascii.ascii :=
  let n := Ascii.nat_of_ascii c in
  if (65 <=? n)%nat && (n <=? 90)%nat then Ascii.ascii_of_nat (n + 32) else c.

Fixpoint lower (s : string) : string :=
  match s with
  | EmptyString => EmptyString
  | String c s' => String (lower_ascii c) (lower s')
  end.

(** [repr] of the values the test transactions hold. *)
Definition test_repr (v : pyval) : string :=
  match v with
  | VNone => "None"
  | VBool true => "True"
  | VBool false => "False"
  | VInt n => pretty n
  | VStr s => "'" +:+ s +:+ "'"
  | _ => "<object>"
  end.

Definition test_respond (c : call) : outcome pyval :=
  match c with
  | client_unlock_account _ password _ => Return (VBool (String.eqb password "secret"))
  | client_lock_account _ => Return (VBool true)
  | client_sign_message _ _ => Return (VBytes "signature")
  | client_sign_transaction _ => Return (VBytes "rawtx")
  | request_blocking method _ =>
      if String.eqb method "account_list" then Return (VList [VStr "0xab12"])
      else if String.eqb method "account_signTransaction"
      then Return (VDict [("raw", VBytes "rawtx")])
      else Return (VStr "0xsig")
  end.

#[export] Instance TestEnv : Env := {|
  wallets := Some [Wallet "ledger://0001" ["0xDev"]; Wallet "keystore:///k1" ["0xSoft"]];
  get_interface_client := Return (VObj "client");
  respond := test_respond;
  read_file := λ path, if String.eqb path "keyfile.json" then Return "{crypto}"
                       else Raise (FileNotFoundError path);
  decrypt := λ _ password, if String.eqb password "secret" then Return (VBytes "privkey")
                           else Raise (ValueError "MAC mismatch");
  account_sign_transaction := λ _ _, Return (VDict [("rawTransaction", VBytes "rawtx")]);
  to_checksum_address := λ a, Return a;
  to_normalized_address := λ v, match v with
                                | VStr a => Return (VStr (lower a))
                                | _ => Raise (TypeError "unsupported address type")
                                end;
  toHex := λ v, match v with
                | VInt n => Return (VStr (HexString.of_Z n))
                | _ => Raise (TypeError "unsupported type")
                end;
  HexBytes := λ v, Return v;
  could_not_format := λ item key,
    "Could not format invalid value " +:+ test_repr item
      +:+ " as field '" +:+ key +:+ "'";
  NULL_ADDRESS := "0x0000000000000000000000000000000000000000"
|}.

(** The constructor argument used with each backend under [TestEnv]. *)
Definition test_arg (b : backend) : pyval :=
  match b with
  | Web3 => VObj "client"
  | Local => VStr "keyfile.json"
  | Clef => VObj "w3"
  end.

(** A freshly constructed signer of each kind under [TestEnv]. *)
Definition fresh (b : backend) : store := snd (new b (test_arg b) empty_store).

(** A transaction as callers hand it over. *)
Definition test_transaction : list (string * pyval) :=
  [("nonce", VInt 5); ("gasPrice", VInt 10); ("gas", VInt 21000);
   ("value", VInt 0); ("chainId", VInt 1);
   ("from", VStr "0xAbCd"); ("to", VStr "0xEf01")].

(** A transaction with integer fields and well-formed addresses, and the
    same transaction with its numeric fields written as hex strings. *)
Definition sender : string := "0x5aAeb6053F3E94C9b9A09f33669435E7Ef1BeAed".
Definition recipient : string := "0xfB6916095ca1df60bB79Ce92cE3Ea74c37c5d359".

Definition integer_transaction : list (string * pyval) :=
  [("nonce", VInt 5); ("gasPrice", VInt 10); ("gas", VInt 21000);
   ("value", VInt 0); ("chainId", VInt 1);
   ("from", VStr sender); ("to", VStr recipient)].

Definition hex_string_transaction : list (string * pyval) :=
  [("nonce", VStr "0x5"); ("gasPrice", VStr "0xa"); ("gas", VStr "0x5208");
   ("value", VStr "0x0"); ("chainId", VStr "0x1");
   ("from", VStr sender); ("to", VStr recipient)].

(** ** The claims of the specification, as predicates on the code *)

(** A call fails with AccountLocked and has no effect: no request is
    issued and the attributes are as before. *)
Definition fails_locked (m : M pyval) (σ : store) : Prop :=
  ∃ msg, m σ = (Raise (AccountLocked msg), σ).

(** A call issues exactly the request [c] and returns its answer. *)
Definition sends `{Env} (m : M pyval) (σ : store) (c : call) : Prop :=
  m σ = (respond c, Store (self σ) (trace σ ++ [c])).

(** A failure with the InvalidInput condition: a [ValueError]. *)
Definition fails_invalid_input (m : M pyval) (σ : store) : Prop :=
  ∃ msg, fst (m σ) = Raise (ValueError msg).

Definition sign_data_request (content_type account : string) (data : pyval) : call :=
  request_blocking "account_signData" [VStr content_type; VStr account; data].

(** The keys [ClefSigner.sign_transaction] formats with [Web3.toHex]. *)
Definition numeric_fields : list string :=
  ["nonce"; "gasPrice"; "gas"; "value"; "chainId"].

(** The item [(key, v)] is the item [(key, item)] as the daemon wants it. *)
Definition formatted_item `{Env} (kv kv' : string * pyval) : Prop :=
  fst kv' = fst kv
  ∧ (fst kv ∈ numeric_fields → toHex (snd kv) = Return (snd kv'))
  ∧ (fst kv = "from" → to_normalized_address (snd kv) = Return (snd kv'))
  ∧ (fst kv ∉ numeric_fields → fst kv ≠ "from" → snd kv' = snd kv).

(** The store [σ] with the base class's flag set to [v]. *)
Definition with_flag (v : pyval) (σ : store) : store :=
  Store (<[mangle Signer.cls "__unlocked" := v]> (self σ)) (trace σ).

Definition on_store {A} (f : store → store) (r : outcome A * store) : outcome A * store :=
  (fst r, f (snd r)).

(** The attribute a backend's own methods write as [self.__unlocked]. *)
Definition class_name (b : backend) : string :=
  match b with
  | Web3 => Web3Signer.cls
  | Local => LocalSigner.cls
  | Clef => ClefSigner.cls
  end.

Definition private_unlocked (b : backend) (σ : store) : option pyval :=
  self σ !! mangle (class_name b) "__unlocked".

(** A computation that writes no attribute. *)
Definition keeps_attrs {A} (m : M A) : Prop :=
  ∀ σ, self (snd (m σ)) = self σ.

(** A computation that never touches the base flag: run after the flag
    is overwritten it gives the same result and the same store, flag
    overwritten. *)
Definition ignores_flag {A} (v : pyval) (m : M A) : Prop :=
  ∀ σ, m (with_flag v σ) = on_store (with_flag v) (m σ).

(** The text of an AccountLocked message is dropped, everything else kept. *)
Definition forget_locked_text {A} (r : outcome A * store) : outcome A * store :=
  match r with
  | (Raise (AccountLocked _), σ) => (Raise (AccountLocked EmptyString), σ)
  | _ => r
  end.

(** The test double with a client whose hardware wallet lists an entry
    that has no checksum form. *)
Definition bad_wallet_env : Env := {|
  wallets := Some [Wallet "trezor://0002" ["0xDev"; "not-an-address"]];
  get_interface_client := @get_interface_client TestEnv;
  respond := @respond TestEnv;
  read_file := @read_file TestEnv;
  decrypt := @decrypt TestEnv;
  account_sign_transaction := @account_sign_transaction TestEnv;
  to_checksum_address := λ a, if String.eqb a "not-an-address"
                              then Raise (ValueError "invalid address")
                              else Return a;
  to_normalized_address := @to_normalized_address TestEnv;
  toHex := @toHex TestEnv;
  HexBytes := @HexBytes TestEnv;
  could_not_format := @could_not_format TestEnv;
  NULL_ADDRESS := @NULL_ADDRESS TestEnv
|}.

(** ** Sequences of contract calls *)

Definition accounts `{Env} (b : backend) : M pyval :=
  match b with
  | Web3 => Web3Signer.accounts
  | Local => LocalSigner.accounts
  | Clef => ClefSigner.accounts
  end.

(** One call of the contract, with its arguments. *)
Inductive op : Type :=
| OpAccounts
| OpUnlock (account password : string) (duration : option Z)
| OpLock (account : string)
| OpSignTransaction (account : string) (transaction : list (string * pyval))
| OpSignMessage (account : string) (message : pyval)
    (content_type validator_address : option string)
    (kwargs : list (string * pyval)).

Definition perform `{Env} (b : backend) (o : op) : M pyval :=
  match o with
  | OpAccounts => accounts b
  | OpUnlock account password duration => unlock_account b account password duration
  | OpLock account => lock_account b account
  | OpSignTransaction account transaction => sign_transaction b account transaction
  | OpSignMessage account message content_type validator_address kwargs =>
      sign_message b account message content_type validator_address kwargs
  end.

(** The store after a caller made the calls in turn, going on after
    the calls that raised. *)
Definition perform_all `{Env} (b : backend) (ops : list op) (σ : store) : store :=
  foldl (λ σ' o, snd (perform b o σ')) σ ops.

(** A computation that issues no request. *)
Definition keeps_trace {A} (m : M A) : Prop :=
  ∀ σ, trace (snd (m σ)) = trace σ.

(** A computation that only adds requests to the trace, at most [n]. *)
Definition sends_at_most {A} (n : nat) (m : M A) : Prop :=
  ∀ σ, ∃ l, trace (snd (m σ)) = (trace σ ++ l)%list ∧ (List.length l ≤ n)%nat.

(** The address [account] is the checksum form of an address listed by
    a wallet of [ws] whose URL has a hardware-wallet prefix. *)
Definition hardware_listed `{Env} (ws : list wallet) (account : string) : Prop :=
  ∃ w a, w ∈ ws
         ∧ Web3Signer.startswith (w_url w) Web3Signer.HW_WALLET_URL_PREFIXES = true
         ∧ a ∈ w_accounts w
         ∧ to_checksum_address a = Return account.

(** * Properties *)

(** Unfolds the monad and the attribute accesses of a method body. *)
Ltac run :=
  unfold bind, ret, raise, lift, try_except, getattr, setattr, invoke in *;
  cbn [fst snd self trace truthy negb] in *.

Lemma mangle_eq cls name : mangle cls name = "_" +:+ cls +:+ name.
Proof. reflexivity. Qed.

(** Refutes the membership [H] of a literal in a list of other literals. *)
Ltac not_listed H :=
  repeat (apply elem_of_cons in H as [?|H]; [done|]);
  by apply elem_of_nil in H.

(** ** The lock-state flag *)

(** The attribute written by [Web3Signer] and [LocalSigner] is not the one
    the [is_unlocked] property reads. *)
Lemma private_flags_differ :
  mangle Web3Signer.cls "__unlocked" ≠ mangle Signer.cls "__unlocked"
  ∧ mangle LocalSigner.cls "__unlocked" ≠ mangle Signer.cls "__unlocked"
  ∧ mangle LocalSigner.cls "__key" ≠ mangle Signer.cls "__unlocked".
Proof. done. Qed.

Lemma reads_unlocked_lookup σ :
  reads_unlocked σ = truthy <$> self σ !! mangle Signer.cls "__unlocked".
Proof.
  unfold reads_unlocked, Signer.is_unlocked, getattr.
  by destruct (self σ !! mangle Signer.cls "__unlocked").
Qed.

(** [Web3Signer.unlock_account] in closed form: no request, the answer
    [True], one private attribute written. *)
Lemma Web3Signer_unlock_account_eq `{Env} account password duration σ :
  Web3Signer.unlock_account account password duration σ
  = (Return (VBool true),
     Store (<[mangle Web3Signer.cls "__unlocked" := VBool true]> (self σ)) (trace σ)).
Proof.
  unfold Web3Signer.unlock_account, Web3Signer.self_is_device. run.
  by rewrite lookup_insert_eq.
Qed.

Lemma Web3Signer_lock_account_eq `{Env} account σ :
  Web3Signer.lock_account account σ
  = (Return (VBool false),
     Store (<[mangle Web3Signer.cls "__unlocked" := VBool false]> (self σ)) (trace σ)).
Proof.
  unfold Web3Signer.lock_account, Web3Signer.self_is_device. run.
  by rewrite lookup_insert_eq.
Qed.

Lemma LocalSigner_lock_account_eq account σ :
  LocalSigner.lock_account account σ
  = (Return (VBool false),
     Store (<[mangle LocalSigner.cls "__unlocked" := VBool false]>
              (<[mangle LocalSigner.cls "__key" := VNone]> (self σ))) (trace σ)).
Proof.
  unfold LocalSigner.lock_account. run.
  by rewrite lookup_insert_eq.
Qed.

(** What [LocalSigner.__import_keyfile] does, by the outcome of reading
    and decrypting the keyfile. *)
Lemma LocalSigner_import_keyfile_cases `{Env} password σ :
  (∃ e, LocalSigner.__import_keyfile password σ = (Raise e, σ))
  ∨ (∃ key, LocalSigner.__import_keyfile password σ
            = (Return (VBool true),
               Store (<[mangle LocalSigner.cls "__key" := key]> (self σ)) (trace σ))).
Proof.
  unfold LocalSigner.__import_keyfile, LocalSigner.open_read. run.
  destruct (self σ !! mangle LocalSigner.cls "__keyfile") as [path|];
    [|left; eauto].
  destruct path; try (left; destruct σ; eauto; fail).
  destruct (read_file s) as [enc|e]; [|left; destruct e; eauto].
  destruct (decrypt enc password) as [key|e]; [|left; destruct e; eauto].
  right. eauto.
Qed.

Lemma LocalSigner_unlock_account_cases `{Env} account password duration σ :
  (∃ e, LocalSigner.unlock_account account password duration σ = (Raise e, σ))
  ∨ (∃ key, LocalSigner.unlock_account account password duration σ
            = (Return (VBool true),
               Store (<[mangle LocalSigner.cls "__unlocked" := VBool true]>
                        (<[mangle LocalSigner.cls "__key" := key]> (self σ)))
                     (trace σ))).
Proof.
  unfold LocalSigner.unlock_account.
  destruct (LocalSigner_import_keyfile_cases password σ) as [[e He]|[key Hk]].
  - left. exists e. unfold bind at 1. by rewrite He.
  - right. exists key. unfold bind at 1. rewrite Hk. run.
    by rewrite lookup_insert_eq.
Qed.

(** No backend's [unlock_account] changes what [is_unlocked] reads. *)
Lemma unlock_account_keeps_reading `{Env} b account password duration σ :
  reads_unlocked (snd (unlock_account b account password duration σ))
  = reads_unlocked σ.
Proof.
  rewrite !reads_unlocked_lookup. destruct b; cbn [unlock_account].
  - rewrite Web3Signer_unlock_account_eq. cbn [snd self].
    by rewrite lookup_insert_ne.
  - destruct (LocalSigner_unlock_account_cases account password duration σ)
      as [[e ->]|[key ->]]; cbn [snd self]; [done|].
    by rewrite !lookup_insert_ne.
  - done.
Qed.

(** No backend's [lock_account] changes it either. *)
Lemma lock_account_keeps_reading `{Env} b account σ :
  reads_unlocked (snd (lock_account b account σ)) = reads_unlocked σ.
Proof.
  rewrite !reads_unlocked_lookup. destruct b; cbn [lock_account].
  - rewrite Web3Signer_lock_account_eq. cbn [snd self].
    by rewrite lookup_insert_ne.
  - rewrite LocalSigner_lock_account_eq. cbn [snd self].
    by rewrite !lookup_insert_ne.
  - done.
Qed.

(** A constructed signer reads locked. *)
Lemma fresh_reads_locked b : reads_unlocked (fresh b) = Some false.
Proof. destruct b; vm_compute; reflexivity. Qed.

(** Under the test double, on a fresh signer of each kind,
    [unlock_account] with the right password answers [True] and the
    [is_unlocked] property read right after answers [False]. *)
Example unlock_reports_true_is_unlocked_reads_false :
  ∀ b : backend,
    fst ((r <- unlock_account b "0xSoft" "secret" None ;;
          u <- Signer.is_unlocked ;;
          ret (r, u)) (fresh b))
    = Return (VBool true, VBool false).
Proof. intros b. destruct b; vm_compute; reflexivity. Qed.

(** The signing methods are built from steps that write no attribute. *)
Section KeepsAttrs.
Context `{Env}.

Lemma keeps_attrs_ret {A} (a : A) : keeps_attrs (ret a).
Proof. done. Qed.

Lemma keeps_attrs_raise {A} e : keeps_attrs (@raise A e).
Proof. done. Qed.

Lemma keeps_attrs_lift {A} (o : outcome A) : keeps_attrs (lift o).
Proof. done. Qed.

Lemma keeps_attrs_invoke c : keeps_attrs (invoke c).
Proof. done. Qed.

Lemma keeps_attrs_getattr name : keeps_attrs (getattr name).
Proof. intros σ. unfold getattr. by destruct (self σ !! name). Qed.

Lemma keeps_attrs_bind {A B} (m : M A) (k : A → M B) :
  keeps_attrs m → (∀ a, keeps_attrs (k a)) → keeps_attrs (bind m k).
Proof.
  intros Hm Hk σ. unfold bind. specialize (Hm σ).
  destruct (m σ) as [[a|e] σ']; cbn [snd] in *; [|done].
  by rewrite Hk.
Qed.

Lemma sign_transaction_keeps_attrs b account transaction :
  keeps_attrs (sign_transaction b account transaction).
Proof.
  destruct b; cbn [sign_transaction];
    unfold Web3Signer.sign_transaction, LocalSigner.sign_transaction,
      ClefSigner.sign_transaction, Signer.is_unlocked;
    repeat first
      [ apply keeps_attrs_bind; [|intros ?]
      | apply keeps_attrs_getattr | apply keeps_attrs_invoke
      | apply keeps_attrs_lift | apply keeps_attrs_raise | apply keeps_attrs_ret
      | case_match ].
Qed.

Lemma sign_message_keeps_attrs
    b account message content_type validator_address kwargs :
  keeps_attrs (sign_message b account message content_type validator_address kwargs).
Proof.
  destruct b; cbn [sign_message];
    unfold Web3Signer.sign_message, LocalSigner.sign_message,
      ClefSigner.sign_message, Signer.is_unlocked;
    repeat first
      [ apply keeps_attrs_bind; [|intros ?]
      | apply keeps_attrs_getattr | apply keeps_attrs_invoke
      | apply keeps_attrs_lift | apply keeps_attrs_raise | apply keeps_attrs_ret
      | case_match ].
Qed.

End KeepsAttrs.

(** On a fresh [ClefSigner] too, [unlock_account] reports success and
    [is_unlocked] does not read true afterwards: its [unlock_account]
    writes nothing. *)
Example ClefSigner_unlock_writes_nothing :
  fst (unlock_account Clef "0xSoft" "secret" None (fresh Clef)) = Return (VBool true)
  ∧ reads_unlocked (snd (unlock_account Clef "0xSoft" "secret" None (fresh Clef)))
    ≠ Some true.
Proof. split; [reflexivity|]. vm_compute. discriminate. Qed.

(** C1, evaluated on the code: under the test double, on a fresh
    Host-Node signer whose client accepts the password and on a fresh
    Local-Keyfile signer whose keyfile decrypts under it,
    [unlock_account] answers [True] and has written [True] to the
    [self.__unlocked] of its own class; the [is_unlocked] property read
    right after still answers false, and [sign_transaction] raises
    AccountLocked.  The attribute the subclass writes is not the one the
    property of the base class reads. *)
Theorem C1_unlocked_signer_still_reads_locked :
  respond (client_unlock_account "0xSoft" "secret" None) = Return (VBool true)
  ∧ Forall
      (λ b, let result := unlock_account b "0xSoft" "secret" None (fresh b) in
            fst result = Return (VBool true)
            ∧ private_unlocked b (snd result) = Some (VBool true)
            ∧ reads_unlocked (snd result) = Some false
            ∧ fst (sign_transaction b "0xSoft" integer_transaction (snd result))
              = Raise (AccountLocked (Signer.locked_message "0xSoft")))
      [Web3; Local].
Proof.
  split; [reflexivity|].
  repeat constructor; vm_compute; reflexivity.
Qed.

(** ** Signing while locked *)

Lemma locked_flag_lookup σ :
  reads_unlocked σ = Some false →
  ∃ v, self σ !! mangle Signer.cls "__unlocked" = Some v ∧ truthy v = false.
Proof.
  rewrite reads_unlocked_lookup.
  destruct (self σ !! mangle Signer.cls "__unlocked") as [v|]; [|done].
  intros [= Hv]. eauto.
Qed.

(** The building blocks of the monad, and the two signing methods of
    [ClefSigner] built from them, ignore the base flag. *)
Section IgnoresFlag.
Context `{Env} (v : pyval).

Lemma ignores_flag_ret {A} (a : A) : ignores_flag v (ret a).
Proof. done. Qed.

Lemma ignores_flag_raise {A} e : ignores_flag v (@raise A e).
Proof. done. Qed.

Lemma ignores_flag_lift {A} (o : outcome A) : ignores_flag v (lift o).
Proof. done. Qed.

Lemma ignores_flag_invoke c : ignores_flag v (invoke c).
Proof. done. Qed.

Lemma ignores_flag_getattr name :
  name ≠ mangle Signer.cls "__unlocked" → ignores_flag v (getattr name).
Proof.
  intros Hne σ. unfold getattr, with_flag, on_store. cbn [self].
  rewrite lookup_insert_ne by done.
  by destruct (self σ !! name).
Qed.

Lemma ignores_flag_bind {A B} (m : M A) (k : A → M B) :
  ignores_flag v m → (∀ a, ignores_flag v (k a)) → ignores_flag v (bind m k).
Proof.
  intros Hm Hk σ. unfold bind. rewrite Hm. unfold on_store at 1.
  destruct (m σ) as [[a|e] σ']; cbn [fst snd]; [apply Hk|done].
Qed.

Lemma ClefSigner_sign_message_ignores_flag
    account message content_type validator_address kwargs :
  ignores_flag v
    (ClefSigner.sign_message account message content_type validator_address kwargs).
Proof.
  unfold ClefSigner.sign_message.
  apply ignores_flag_bind.
  { repeat case_match; auto using ignores_flag_ret, ignores_flag_raise. }
  intros ct. apply ignores_flag_bind.
  { repeat case_match; auto using ignores_flag_ret, ignores_flag_raise. }
  intros data. apply ignores_flag_bind; [by apply ignores_flag_getattr|].
  intros _. apply ignores_flag_invoke.
Qed.

Lemma ClefSigner_sign_transaction_ignores_flag account transaction :
  ignores_flag v (ClefSigner.sign_transaction account transaction).
Proof.
  unfold ClefSigner.sign_transaction.
  apply ignores_flag_bind; [apply ignores_flag_lift|]. intros formatted.
  apply ignores_flag_bind; [by apply ignores_flag_getattr|]. intros _.
  apply ignores_flag_bind; [apply ignores_flag_invoke|]. intros signed.
  apply ignores_flag_bind; [apply ignores_flag_lift|]. intros raw.
  apply ignores_flag_lift.
Qed.

End IgnoresFlag.

(** C2, as stated, fails for the External-Signer backend: on a fresh
    [ClefSigner], where [is_unlocked] reads false, [sign_message] does not
    fail with AccountLocked; it issues its request. *)
Lemma C2_counterexample :
  reads_unlocked (fresh Clef) = Some false
  ∧ ¬ fails_locked
        (sign_message Clef "0xSoft" (VBytes "hello") None None []) (fresh Clef).
Proof.
  split; [apply fresh_reads_locked|].
  intros [msg Hm]. apply (f_equal fst) in Hm. vm_compute in Hm. discriminate.
Qed.

(** C2, amended: while [is_unlocked] reads false, [sign_transaction] of
    the Host-Node and Local-Keyfile backends and [sign_message] of the
    Host-Node backend fail with AccountLocked, issue no request and leave
    the signer's state as it was; the External-Signer backend's two
    signing methods do not depend on the flag at all. *)
Theorem C2_locked_signing_fails_except_clef `{Env}
    (account : string) (transaction : list (string * pyval)) (message : pyval)
    (content_type validator_address : option string)
    (kwargs : list (string * pyval)) (σ : store) :
  reads_unlocked σ = Some false →
  (∀ b, b ≠ Clef →
        sign_transaction b account transaction σ
        = (Raise (AccountLocked (Signer.locked_message account)), σ))
  ∧ sign_message Web3 account message content_type validator_address kwargs σ
    = (Raise (AccountLocked (Signer.locked_message account)), σ)
  ∧ (∀ v, sign_message Clef account message content_type validator_address kwargs
            (with_flag v σ)
          = on_store (with_flag v)
              (sign_message Clef account message content_type validator_address
                 kwargs σ))
  ∧ (∀ v, sign_transaction Clef account transaction (with_flag v σ)
          = on_store (with_flag v) (sign_transaction Clef account transaction σ)).
Proof.
  intros Hlocked. destruct (locked_flag_lookup σ Hlocked) as (u & Hu & Hfalse).
  split; [|split; [|split]].
  - intros b Hb. destruct b; [| |done]; cbn [sign_transaction];
      unfold Web3Signer.sign_transaction, LocalSigner.sign_transaction,
        Signer.is_unlocked; run; by rewrite Hu, Hfalse.
  - cbn [sign_message]. unfold Web3Signer.sign_message, Signer.is_unlocked. run.
    by rewrite Hu, Hfalse.
  - intros v. apply ClefSigner_sign_message_ignores_flag.
  - intros v. apply ClefSigner_sign_transaction_ignores_flag.
Qed.

Lemma C2_locked_signing_fails_except_clef_witness :
  reads_unlocked (fresh Web3) = Some false
  ∧ sign_message Web3 "0xSoft" (VBytes "hello") None None [] (fresh Web3)
    = (Raise (AccountLocked (Signer.locked_message "0xSoft")), fresh Web3).
Proof.
  split; [apply fresh_reads_locked|].
  apply (C2_locked_signing_fails_except_clef
           "0xSoft" [("nonce", VInt 5)] (VBytes "hello") None None [] (fresh Web3)).
  apply fresh_reads_locked.
Defined.

(** ** Hardware wallets and the Host-Node backend *)

(** C3, evaluated on the code: under the test double the address [0xSoft]
    is not a hardware-wallet address ([is_device] answers [False] for it,
    [True] for [0xDev]) and the client would refuse the password, yet
    [unlock_account] answers [True] and issues no request: the method
    tests the function object [self.is_device], which is always true, and
    never calls it. *)
Theorem C3_unlock_account_never_delegates :
  fst (Web3Signer.is_device "0xSoft" (fresh Web3)) = Return (VBool false)
  ∧ fst (Web3Signer.is_device "0xDev" (fresh Web3)) = Return (VBool true)
  ∧ respond (client_unlock_account "0xSoft" "wrong" None) = Return (VBool false)
  ∧ fst (unlock_account Web3 "0xSoft" "wrong" None (fresh Web3)) = Return (VBool true)
  ∧ trace (snd (unlock_account Web3 "0xSoft" "wrong" None (fresh Web3))) = [].
Proof. repeat split; vm_compute; reflexivity. Qed.

(** ** lock_account *)

(** C4, as stated, fails for the External-Signer backend:
    [ClefSigner.lock_account] does not return false. *)
Lemma C4_counterexample :
  fst (lock_account Clef "0xSoft" (fresh Clef)) ≠ Return (VBool false).
Proof. vm_compute. discriminate. Qed.

(** C4, amended: for every backend, address and state [lock_account]
    returns without raising; the Host-Node and Local-Keyfile backends
    return [False], the External-Signer backend returns [True]. *)
Theorem C4_lock_account_returns `{Env} (b : backend) (account : string) (σ : store) :
  fst (lock_account b account σ)
  = Return (VBool (match b with Clef => true | _ => false end)).
Proof.
  destruct b; cbn [lock_account].
  - by rewrite Web3Signer_lock_account_eq.
  - by rewrite LocalSigner_lock_account_eq.
  - done.
Qed.

(** ** ClefSigner.sign_transaction *)

Lemma assoc_cons {A} key k (x : A) d :
  assoc key ((k, x) :: d) = if String.eqb key k then Some x else assoc key d.
Proof. unfold assoc. cbn [List.find fst]. by destruct (String.eqb key k). Qed.

(** The formatter table, read as a function of the key. *)
Lemma formatters_lookup `{Env} key :
  assoc key ClefSigner.formatters
  = if bool_decide (key ∈ numeric_fields) then Some toHex
    else if bool_decide (key = "from") then Some to_normalized_address
    else None.
Proof.
  unfold ClefSigner.formatters. rewrite !assoc_cons.
  repeat match goal with
         | |- context [String.eqb key ?k] =>
             destruct (String.eqb_spec key k) as [->|?]; [vm_compute; reflexivity|]
         end.
  rewrite bool_decide_eq_false_2.
  - by rewrite bool_decide_eq_false_2.
  - unfold numeric_fields. intros Hin. not_listed Hin.
Qed.

Lemma from_not_numeric : "from" ∉ numeric_fields.
Proof. unfold numeric_fields. intros Hin. not_listed Hin. Qed.

(** One item through the formatter table. *)
Lemma format_item_formatters `{Env} key item :
  format_item ClefSigner.formatters key item
  = if bool_decide (key ∈ numeric_fields) then
      match toHex item with
      | Return v => Return v
      | Raise e => Raise (reraise_formatting key item e)
      end
    else if bool_decide (key = "from") then
      match to_normalized_address item with
      | Return v => Return v
      | Raise e => Raise (reraise_formatting key item e)
      end
    else Return item.
Proof.
  unfold format_item. rewrite formatters_lookup. by repeat case_bool_decide.
Qed.

(** A successful formatting relates the two mappings item by item. *)
Lemma apply_formatters_to_dict_items `{Env} value formatted :
  apply_formatters_to_dict ClefSigner.formatters value = Return formatted →
  Forall2 formatted_item value formatted.
Proof.
  revert formatted. induction value as [|[key item] rest IH]; intros formatted.
  - intros [= <-]. constructor.
  - cbn [apply_formatters_to_dict]. rewrite format_item_formatters.
    destruct (decide (key ∈ numeric_fields)) as [Hnum|Hnum];
      [rewrite bool_decide_eq_true_2 by done
      |rewrite bool_decide_eq_false_2 by done;
       destruct (decide (key = "from")) as [->|Hfrom];
       [rewrite bool_decide_eq_true_2 by done
       |rewrite bool_decide_eq_false_2 by done]].
    + destruct (toHex item) as [v|e] eqn:Hv; [|done].
      destruct (apply_formatters_to_dict ClefSigner.formatters rest)
        as [rest'|e]; [|done].
      intros [= <-]. constructor; [|by apply IH].
      unfold formatted_item. cbn [fst snd]. split_and!; try done.
      intros ->. by destruct from_not_numeric.
    + destruct (to_normalized_address item) as [v|e] eqn:Hv; [|done].
      destruct (apply_formatters_to_dict ClefSigner.formatters rest)
        as [rest'|e]; [|done].
      intros [= <-]. constructor; [|by apply IH].
      unfold formatted_item. cbn [fst snd]. split_and!; done.
    + destruct (apply_formatters_to_dict ClefSigner.formatters rest)
        as [rest'|e]; [|done].
      intros [= <-]. constructor; [|by apply IH].
      unfold formatted_item. cbn [fst snd]. split_and!; done.
Qed.

(** Formatting succeeds as soon as the library formatters accept the
    fields that are present. *)
Lemma apply_formatters_to_dict_total `{Env} value :
  (∀ key item, (key, item) ∈ value → key ∈ numeric_fields →
               ∃ h, toHex item = Return h) →
  (∀ item, ("from", item) ∈ value → ∃ a, to_normalized_address item = Return a) →
  ∃ formatted,
    apply_formatters_to_dict ClefSigner.formatters value = Return formatted.
Proof.
  induction value as [|[key item] rest IH]; intros Hhex Hfrom; [by eexists|].
  destruct IH as [rest' Hrest].
  { intros k i Hin. apply Hhex. by right. }
  { intros i Hin. apply Hfrom. by right. }
  cbn [apply_formatters_to_dict]. rewrite format_item_formatters, Hrest.
  repeat case_bool_decide; subst.
  - destruct (Hhex key item) as [h ->]; [by left|done|by eexists].
  - destruct (Hfrom item) as [a ->]; [by left|by eexists].
  - by eexists.
Qed.

(** A field its formatter rejects makes the formatting raise. *)
Lemma apply_formatters_to_dict_raises `{Env} value key item e :
  (key, item) ∈ value →
  (key ∈ numeric_fields ∧ toHex item = Raise e)
  ∨ (key = "from" ∧ to_normalized_address item = Raise e) →
  ∃ e', apply_formatters_to_dict ClefSigner.formatters value = Raise e'.
Proof.
  induction value as [|[key' item'] rest IH]; intros Hin Hbad;
    [by apply elem_of_nil in Hin|].
  cbn [apply_formatters_to_dict].
  apply elem_of_cons in Hin as [[= <- <-]|Hin].
  - rewrite format_item_formatters. destruct Hbad as [[Hnum Hraise]|[-> Hraise]].
    + rewrite bool_decide_eq_true_2 by done. rewrite Hraise. by eexists.
    + rewrite bool_decide_eq_false_2 by apply from_not_numeric.
      rewrite bool_decide_eq_true_2 by done. rewrite Hraise. by eexists.
  - destruct (IH Hin Hbad) as [e' ->]. repeat case_match; by eexists.
Qed.

(** C5, as stated, fails for hex strings: under the test double, whose
    [toHex] rejects a [str] as the library's does, the transaction with
    its numeric fields written as hex strings makes [sign_transaction]
    raise the [TypeError] for the nonce, and no request is sent. *)
Lemma C5_counterexample :
  sign_transaction Clef sender hex_string_transaction (fresh Clef)
  = (Raise (TypeError (could_not_format (VStr "0x5") "nonce")), fresh Clef)
  ∧ ¬ (∃ formatted,
         trace (snd (sign_transaction Clef sender hex_string_transaction (fresh Clef)))
         = [request_blocking "account_signTransaction" [VDict formatted]]).
Proof.
  split; [vm_compute; reflexivity|].
  intros [formatted Hsent]. vm_compute in Hsent. discriminate.
Qed.

(** C5, amended: when [Web3.toHex] accepts the values of the fields
    nonce, gasPrice, gas, value and chainId present in the transaction
    and [to_normalized_address] accepts its from, [sign_transaction]
    issues one [account_signTransaction] request whose single parameter
    is the formatted transaction: the same keys in the same order, the
    values of those fields replaced by their [Web3.toHex], the value of
    from by its [to_normalized_address], every other item as it was.
    When [Web3.toHex] rejects the value of one of those fields, as it
    does a hex string, [sign_transaction] raises and sends nothing. *)
Theorem C5_sign_transaction_formats_accepted_fields `{Env}
    (account : string) (transaction : list (string * pyval))
    (w : pyval) (σ : store) :
  self σ !! "w3" = Some w →
  ((∀ key item, (key, item) ∈ transaction → key ∈ numeric_fields →
                ∃ h, toHex item = Return h) →
   (∀ item, ("from", item) ∈ transaction →
            ∃ a, to_normalized_address item = Return a) →
   ∃ formatted,
     snd (sign_transaction Clef account transaction σ)
     = Store (self σ)
         (trace σ ++ [request_blocking "account_signTransaction" [VDict formatted]])
     ∧ Forall2 formatted_item transaction formatted)
  ∧ (∀ key item e,
       (key, item) ∈ transaction → key ∈ numeric_fields → toHex item = Raise e →
       ∃ e', sign_transaction Clef account transaction σ = (Raise e', σ)).
Proof.
  intros Hw3. split.
  - intros Hhex Hfrom.
    destruct (apply_formatters_to_dict_total transaction Hhex Hfrom)
      as [formatted Hfmt].
    exists formatted. split; [|by apply apply_formatters_to_dict_items].
    cbn [sign_transaction]. unfold ClefSigner.sign_transaction. run.
    rewrite Hfmt, Hw3. by repeat case_match.
  - intros key item e Hin Hnum Hraise.
    destruct (apply_formatters_to_dict_raises transaction key item e Hin)
      as [e' Hfmt]; [by left|].
    exists e'. cbn [sign_transaction]. unfold ClefSigner.sign_transaction. run.
    by rewrite Hfmt.
Qed.

Lemma C5_sign_transaction_formats_accepted_fields_witness :
  (∃ formatted,
     snd (sign_transaction Clef sender integer_transaction (fresh Clef))
     = Store (self (fresh Clef))
         (trace (fresh Clef)
          ++ [request_blocking "account_signTransaction" [VDict formatted]])
     ∧ Forall2 formatted_item integer_transaction formatted)
  ∧ ∃ e', sign_transaction Clef sender hex_string_transaction (fresh Clef)
          = (Raise e', fresh Clef).
Proof.
  split.
  - apply (C5_sign_transaction_formats_accepted_fields
             sender integer_transaction (VObj "w3") (fresh Clef) eq_refl).
    + intros key item Hin Hnum. unfold integer_transaction in Hin.
      repeat (apply elem_of_cons in Hin as [[= -> ->]|Hin];
              [first [by eexists | unfold numeric_fields in Hnum; not_listed Hnum]|]).
      by apply elem_of_nil in Hin.
    + intros item Hin. unfold integer_transaction in Hin.
      repeat (apply elem_of_cons in Hin as [Heq|Hin];
              [try done; injection Heq as ->; by eexists|]).
      by apply elem_of_nil in Hin.
  - apply (proj2 (C5_sign_transaction_formats_accepted_fields
                    sender hex_string_transaction (VObj "w3") (fresh Clef) eq_refl)
                 "nonce" (VStr "0x5") (TypeError "unsupported type")).
    + by left.
    + unfold numeric_fields. by left.
    + reflexivity.
Defined.

(** The request the integer transaction produces under the test double. *)
Example sign_transaction_integer_request :
  trace (snd (sign_transaction Clef sender integer_transaction (fresh Clef)))
  = [request_blocking "account_signTransaction"
       [VDict [("nonce", VStr "0x5"); ("gasPrice", VStr "0xa"); ("gas", VStr "0x5208");
               ("value", VStr "0x0"); ("chainId", VStr "0x1");
               ("from", VStr "0x5aaeb6053f3e94c9b9a09f33669435e7ef1beaed");
               ("to", VStr recipient)]]].
Proof. vm_compute. reflexivity. Qed.

(** The request the test transaction produces under the test double. *)
Example sign_transaction_test_request :
  trace (snd (sign_transaction Clef "0xAbCd" test_transaction (fresh Clef)))
  = [request_blocking "account_signTransaction"
       [VDict [("nonce", VStr "0x5"); ("gasPrice", VStr "0xa"); ("gas", VStr "0x5208");
               ("value", VStr "0x0"); ("chainId", VStr "0x1");
               ("from", VStr "0xabcd"); ("to", VStr "0xEf01")]]].
Proof. vm_compute. reflexivity. Qed.

(** ** ClefSigner.sign_message *)

(** The last stage of [ClefSigner.sign_message]: the request for the
    content type in force [ct] and the payload [data]. *)
Lemma ClefSigner_sign_message_request `{Env} account ct data w σ :
  self σ !! "w3" = Some w →
  (_ <- getattr "w3" ;;
   invoke (request_blocking "account_signData" [VStr ct; VStr account; data])) σ
  = (respond (sign_data_request ct account data),
     Store (self σ) (trace σ ++ [sign_data_request ct account data])).
Proof. intros Hw3. run. by rewrite Hw3. Qed.

Lemma recognized_content_types ct :
  ct ∈ ClefSigner.SIGN_DATA_CONTENT_TYPES
  ↔ ct = ClefSigner.SIGN_DATA_FOR_VALIDATOR
    ∨ ct = ClefSigner.SIGN_DATA_FOR_CLIQUE
    ∨ ct = ClefSigner.SIGN_DATA_FOR_ECRECOVER.
Proof.
  unfold ClefSigner.SIGN_DATA_CONTENT_TYPES.
  rewrite !elem_of_cons, elem_of_nil. tauto.
Qed.

Lemma truthy_opt_false o : truthy_opt o = false ↔ o = None ∨ o = Some EmptyString.
Proof.
  destruct o as [s|]; cbn; [|tauto].
  destruct (String.eqb_spec s EmptyString) as [->|Hs]; cbn.
  - tauto.
  - split; [done|]. by intros [?|[= ?]].
Qed.

Lemma truthy_opt_true s : s ≠ EmptyString → truthy_opt (Some s) = true.
Proof. intros Hs. cbn. by destruct (String.eqb_spec s EmptyString). Qed.

Lemma bind_ret_l {A B} (a : A) (k : A → M B) : bind (ret a) k = k a.
Proof. reflexivity. Qed.

Lemma bind_raise_l {A B} e (k : A → M B) : bind (raise e) k = raise e.
Proof. reflexivity. Qed.

(** Payload shaping and sending, for the content type in force [ct]. *)
Lemma ClefSigner_sign_message_given `{Env}
    account message ct validator_address kwargs :
  ct ≠ EmptyString → ct ∈ ClefSigner.SIGN_DATA_CONTENT_TYPES →
  ClefSigner.sign_message account message (Some ct) validator_address kwargs
  = (data <-
       (if String.eqb ct ClefSigner.SIGN_DATA_FOR_VALIDATOR then
          if negb (truthy_opt validator_address)
             || bool_decide (validator_address = Some NULL_ADDRESS)
          then raise (ValueError ClefSigner.validator_required)
          else ret (VList [VStr (default EmptyString validator_address); message])
        else if String.eqb ct ClefSigner.SIGN_DATA_FOR_ECRECOVER then ret message
        else raise NotImplementedError) ;;
     _ <- getattr "w3" ;;
     invoke (request_blocking "account_signData" [VStr ct; VStr account; data])).
Proof.
  intros Hne Hin. unfold ClefSigner.sign_message.
  rewrite truthy_opt_true by done. cbn [negb default].
  rewrite bool_decide_eq_true_2 by done. cbn [negb].
  by rewrite bind_ret_l.
Qed.

(** A content type that is not given, or empty, is replaced by the
    default; the payload is then the message itself. *)
Lemma ClefSigner_sign_message_default `{Env}
    account message content_type validator_address kwargs :
  truthy_opt content_type = false →
  ClefSigner.sign_message account message content_type validator_address kwargs
  = (_ <- getattr "w3" ;;
     invoke (request_blocking "account_signData"
               [VStr ClefSigner.SIGN_DATA_FOR_ECRECOVER; VStr account; message])).
Proof.
  intros Hfalse. unfold ClefSigner.sign_message.
  rewrite Hfalse. cbn [negb]. rewrite bind_ret_l.
  change (String.eqb ClefSigner.DEFAULT_CONTENT_TYPE ClefSigner.SIGN_DATA_FOR_VALIDATOR)
    with false.
  change (String.eqb ClefSigner.DEFAULT_CONTENT_TYPE ClefSigner.SIGN_DATA_FOR_ECRECOVER)
    with true.
  cbv iota. by rewrite bind_ret_l.
Qed.

(** C6, as stated, fails at the empty string: it is neither null nor the
    zero address, yet with it [sign_message] under the VALIDATOR content
    type raises instead of sending the request for the pair. *)
Lemma C6_counterexample :
  Some EmptyString ≠ (None : option string)
  ∧ EmptyString ≠ NULL_ADDRESS
  ∧ ¬ sends (sign_message Clef "0xSoft" (VBytes "hello")
               (Some ClefSigner.SIGN_DATA_FOR_VALIDATOR) (Some EmptyString) [])
            (fresh Clef)
            (sign_data_request ClefSigner.SIGN_DATA_FOR_VALIDATOR "0xSoft"
               (VList [VStr EmptyString; VBytes "hello"])).
Proof.
  split_and!; [done|done|].
  intros Hs. apply (f_equal fst) in Hs. vm_compute in Hs. discriminate.
Qed.

(** C6, amended: under the VALIDATOR content type [sign_message] raises
    [ValueError] and sends nothing when [validator_address] is [None],
    the empty string or the zero address; with any other
    [validator_address] it issues the [account_signData] request whose
    data is the pair (validator_address, message) and returns the
    daemon's answer. *)
Theorem C6_validator_needs_address `{Env}
    (account : string) (message : pyval) (validator_address : option string)
    (kwargs : list (string * pyval)) (w : pyval) (σ : store) :
  self σ !! "w3" = Some w →
  let call_it :=
    sign_message Clef account message
      (Some ClefSigner.SIGN_DATA_FOR_VALIDATOR) validator_address kwargs in
  (validator_address = None ∨ validator_address = Some EmptyString
   ∨ validator_address = Some NULL_ADDRESS →
   call_it σ = (Raise (ValueError ClefSigner.validator_required), σ))
  ∧ (∀ a, validator_address = Some a → a ≠ EmptyString → a ≠ NULL_ADDRESS →
          sends call_it σ
            (sign_data_request ClefSigner.SIGN_DATA_FOR_VALIDATOR account
               (VList [VStr a; message]))).
Proof.
  intros Hw3 call_it. subst call_it. cbn [sign_message]. unfold sends.
  rewrite ClefSigner_sign_message_given
    by (done || apply recognized_content_types; auto).
  rewrite String.eqb_refl.
  split.
  - intros Hva.
    assert (negb (truthy_opt validator_address)
            || bool_decide (validator_address = Some NULL_ADDRESS) = true) as ->;
      [|done].
    destruct Hva as [-> | [-> | ->]]; [done|done|].
    rewrite bool_decide_eq_true_2 by done. apply orb_true_r.
  - intros a -> Hne Hnz.
    rewrite truthy_opt_true by done.
    rewrite bool_decide_eq_false_2 by congruence.
    cbn [negb orb default]. rewrite bind_ret_l.
    by apply ClefSigner_sign_message_request with (w := w).
Qed.

Lemma C6_validator_needs_address_witness :
  sends (sign_message Clef "0xSoft" (VBytes "hello")
           (Some ClefSigner.SIGN_DATA_FOR_VALIDATOR) (Some "0xC0ffee") [])
        (fresh Clef)
        (sign_data_request ClefSigner.SIGN_DATA_FOR_VALIDATOR "0xSoft"
           (VList [VStr "0xC0ffee"; VBytes "hello"])).
Proof.
  refine (proj2 (C6_validator_needs_address "0xSoft" (VBytes "hello")
                   (Some "0xC0ffee") [] (VObj "w3") (fresh Clef) _)
                "0xC0ffee" _ _ _); [reflexivity|reflexivity|done|done].
Defined.

(** C7, as stated, fails: with the CLIQUE content type a fresh
    [ClefSigner] issues no request at all. *)
Lemma C7_counterexample :
  ¬ (∃ c, sends (sign_message Clef "0xSoft" (VBytes "hello")
                   (Some ClefSigner.SIGN_DATA_FOR_CLIQUE) None [])
                (fresh Clef) c).
Proof.
  intros [c Hs]. apply (f_equal (λ r, length (trace (snd r)))) in Hs.
  vm_compute in Hs. discriminate.
Qed.

(** C7, amended: the CLIQUE content type is one of the recognized types,
    so it passes the content-type validation; the call then raises
    [NotImplementedError], whatever the other arguments, and sends
    nothing. *)
Theorem C7_clique_not_implemented `{Env}
    (account : string) (message : pyval) (validator_address : option string)
    (kwargs : list (string * pyval)) (σ : store) :
  ClefSigner.SIGN_DATA_FOR_CLIQUE ∈ ClefSigner.SIGN_DATA_CONTENT_TYPES
  ∧ sign_message Clef account message
      (Some ClefSigner.SIGN_DATA_FOR_CLIQUE) validator_address kwargs σ
    = (Raise NotImplementedError, σ).
Proof.
  split; [apply recognized_content_types; auto|].
  cbn [sign_message].
  by rewrite ClefSigner_sign_message_given
    by (done || apply recognized_content_types; auto).
Qed.

(** C8, as stated, fails at the empty string: it is outside the
    recognized set, yet the call does not fail with InvalidInput; the
    default content type is used and the request is sent. *)
Lemma C8_counterexample :
  (EmptyString ∉ ClefSigner.SIGN_DATA_CONTENT_TYPES)
  ∧ ¬ fails_invalid_input
        (sign_message Clef "0xSoft" (VBytes "hello") (Some EmptyString) None [])
        (fresh Clef).
Proof.
  split.
  - rewrite recognized_content_types. by intros [?|[?|?]].
  - intros [msg Hm]. vm_compute in Hm. discriminate.
Qed.

(** C8, amended: with no content type, or an empty one, [sign_message]
    issues the [account_signData] request under [text/plain] with the
    message itself as data; with a non-empty content type outside the
    recognized set it raises the [ValueError] whose text lists the three
    valid types and sends nothing, whatever the validator address. *)
Theorem C8_default_and_unknown_content_type `{Env}
    (account : string) (message : pyval)
    (content_type validator_address : option string)
    (kwargs : list (string * pyval)) (w : pyval) (σ : store) :
  self σ !! "w3" = Some w →
  let call_it :=
    sign_message Clef account message content_type validator_address kwargs in
  (content_type = None ∨ content_type = Some EmptyString →
   sends call_it σ
     (sign_data_request ClefSigner.SIGN_DATA_FOR_ECRECOVER account message))
  ∧ (∀ ct, content_type = Some ct → ct ≠ EmptyString →
           ct ∉ ClefSigner.SIGN_DATA_CONTENT_TYPES →
           call_it σ
           = (Raise (ValueError
                       (ct +:+ " is not a valid content type. Valid types are "
                           +:+ "('data/validator', 'application/clique', 'text/plain')")),
              σ)).
Proof.
  intros Hw3 call_it. subst call_it. cbn [sign_message]. split.
  - intros Hct. apply truthy_opt_false in Hct. unfold sends.
    rewrite ClefSigner_sign_message_default by done.
    by apply ClefSigner_sign_message_request with (w := w).
  - intros ct -> Hne Hout. unfold ClefSigner.sign_message.
    rewrite truthy_opt_true by done. cbn [negb default].
    by rewrite bool_decide_eq_false_2 by done.
Qed.

Lemma C8_default_and_unknown_content_type_witness :
  sends (sign_message Clef "0xSoft" (VBytes "hello") None None []) (fresh Clef)
        (sign_data_request ClefSigner.SIGN_DATA_FOR_ECRECOVER "0xSoft" (VBytes "hello"))
  ∧ sign_message Clef "0xSoft" (VBytes "hello") (Some "text/html") None [] (fresh Clef)
    = (Raise (ValueError
                ("text/html" +:+ " is not a valid content type. Valid types are "
                   +:+ "('data/validator', 'application/clique', 'text/plain')")),
       fresh Clef).
Proof.
  pose proof (C8_default_and_unknown_content_type
                "0xSoft" (VBytes "hello") None None [] (VObj "w3") (fresh Clef)
                eq_refl) as [Hdefault _].
  pose proof (C8_default_and_unknown_content_type
                "0xSoft" (VBytes "hello") (Some "text/html") None [] (VObj "w3")
                (fresh Clef) eq_refl) as [_ Hunknown].
  split.
  - apply Hdefault. by left.
  - apply (Hunknown "text/html"); [done|done|].
    rewrite recognized_content_types. by intros [?|[?|?]].
Defined.

(** ** LocalSigner: failed unlocks and the account argument *)

(** C9: when the keyfile is missing, [unlock_account] of the
    Local-Keyfile backend raises that very [FileNotFoundError]; when the
    file is read and decryption fails, it raises the decryption error
    itself; and whenever [unlock_account] raises, the store is the one it
    started from, so a signer that read locked and held no key still
    reads locked and holds no key. *)
Theorem C9_failed_unlock_propagates_and_keeps_state `{Env}
    (account password : string) (duration : option Z) (path : string) (σ : store) :
  self σ !! mangle LocalSigner.cls "__keyfile" = Some (VStr path) →
  let result := unlock_account Local account password duration σ in
  (∀ p, read_file path = Raise (FileNotFoundError p) →
        result = (Raise (FileNotFoundError p), σ))
  ∧ (∀ encrypted_key e,
        read_file path = Return encrypted_key →
        decrypt encrypted_key password = Raise e →
        result = (Raise e, σ))
  ∧ (∀ e, fst result = Raise e →
          snd result = σ
          ∧ (reads_unlocked σ = Some false →
             reads_unlocked (snd result) = Some false)
          ∧ (self σ !! mangle LocalSigner.cls "__key" = Some VNone →
             self (snd result) !! mangle LocalSigner.cls "__key" = Some VNone)).
Proof.
  intros Hpath result. subst result. cbn [unlock_account]. split_and!.
  - intros p Hmissing.
    unfold LocalSigner.unlock_account, LocalSigner.__import_keyfile,
      LocalSigner.open_read. run.
    by rewrite Hpath, Hmissing.
  - intros encrypted_key e Hread Hdecrypt.
    unfold LocalSigner.unlock_account, LocalSigner.__import_keyfile,
      LocalSigner.open_read. run.
    rewrite Hpath, Hread, Hdecrypt. by destruct e.
  - intros e Hraise.
    destruct (LocalSigner_unlock_account_cases account password duration σ)
      as [[e' He']|[key Hkey]].
    + rewrite He'. done.
    + rewrite Hkey in Hraise. done.
Qed.

Lemma C9_failed_unlock_propagates_and_keeps_state_witness :
  unlock_account Local "0xSoft" "wrong" None (fresh Local)
  = (Raise (ValueError "MAC mismatch"), fresh Local).
Proof.
  refine (proj1 (proj2 (C9_failed_unlock_propagates_and_keeps_state
                          "0xSoft" "wrong" None "keyfile.json" (fresh Local) _))
                "{crypto}" (ValueError "MAC mismatch") _ _); reflexivity.
Defined.

(** A keyfile that does not exist, under the test double. *)
Example unlock_missing_keyfile :
  unlock_account Local "0xSoft" "secret" None
    (snd (new Local (VStr "missing.json") empty_store))
  = (Raise (FileNotFoundError "missing.json"),
     snd (new Local (VStr "missing.json") empty_store)).
Proof. vm_compute. reflexivity. Qed.

(** C10, as stated, fails for [sign_transaction]: on a fresh
    [LocalSigner] two different account strings give two different
    results, since the account is read to build the error text. *)
Lemma C10_counterexample :
  sign_transaction Local "0xA" test_transaction (fresh Local)
  ≠ sign_transaction Local "0xB" test_transaction (fresh Local).
Proof.
  intros Heq. apply (f_equal fst) in Heq. vm_compute in Heq. congruence.
Qed.

(** C10, amended: [unlock_account] of the Local-Keyfile backend gives the
    same result and the same state for any two account strings; the two
    results of [sign_transaction] for two account strings are equal once
    the text of an AccountLocked error is set aside: the account is read
    only to build that text and is never compared with the key. *)
Theorem C10_account_read_only_for_error_text `{Env}
    (a1 a2 password : string) (duration : option Z)
    (transaction : list (string * pyval)) (σ : store) :
  unlock_account Local a1 password duration σ
  = unlock_account Local a2 password duration σ
  ∧ forget_locked_text (sign_transaction Local a1 transaction σ)
    = forget_locked_text (sign_transaction Local a2 transaction σ).
Proof.
  split; [reflexivity|].
  cbn [sign_transaction].
  unfold LocalSigner.sign_transaction, Signer.is_unlocked. run.
  destruct (self σ !! mangle Signer.cls "__unlocked") as [u|]; [|done].
  by destruct (truthy u).
Qed.

(** * Further properties of the signers *)

(** ** What is_unlocked reads over a signer's life *)

Lemma accounts_keeps_attrs `{Env} b : keeps_attrs (accounts b).
Proof.
  destruct b; cbn [accounts]; [done|done|].
  unfold ClefSigner.accounts.
  repeat first
    [ apply keeps_attrs_bind; [|intros ?]
    | apply keeps_attrs_getattr | apply keeps_attrs_invoke
    | apply keeps_attrs_lift | apply keeps_attrs_raise | apply keeps_attrs_ret
    | case_match ].
Qed.

Lemma keeps_attrs_reading {A} (m : M A) σ :
  keeps_attrs m → reads_unlocked (snd (m σ)) = reads_unlocked σ.
Proof. intros Hm. rewrite !reads_unlocked_lookup. by rewrite Hm. Qed.

Lemma perform_keeps_reading `{Env} b o σ :
  reads_unlocked (snd (perform b o σ)) = reads_unlocked σ.
Proof.
  destruct o; cbn [perform].
  - apply keeps_attrs_reading, accounts_keeps_attrs.
  - apply unlock_account_keeps_reading.
  - apply lock_account_keeps_reading.
  - apply keeps_attrs_reading, sign_transaction_keeps_attrs.
  - apply keeps_attrs_reading, sign_message_keeps_attrs.
Qed.

Lemma perform_all_keeps_reading `{Env} b ops σ :
  reads_unlocked (perform_all b ops σ) = reads_unlocked σ.
Proof.
  unfold perform_all. revert σ.
  induction ops as [|o ops IH]; intros σ; [done|].
  cbn [foldl]. rewrite IH. apply perform_keeps_reading.
Qed.

(** A signer whose construction succeeded reads locked. *)
Lemma new_reads_locked `{Env} b arg σ0 :
  fst (new b arg σ0) = Return () →
  reads_unlocked (snd (new b arg σ0)) = Some false.
Proof.
  rewrite reads_unlocked_lookup.
  destruct b; cbn [new].
  - unfold Web3Signer.__init__, Signer.__init__. run.
    destruct (truthy arg); cbn [negb]; cbn [fst snd self].
    + intros _. rewrite lookup_insert_ne by done. by rewrite lookup_insert_eq.
    + destruct get_interface_client as [client|e]; cbn [fst snd self]; [|done].
      intros _. rewrite lookup_insert_ne by done. by rewrite lookup_insert_eq.
  - destruct arg; try done.
    unfold LocalSigner.__init__, Signer.__init__. run. intros _.
    rewrite !lookup_insert_ne by done. by rewrite lookup_insert_eq.
  - unfold ClefSigner.__init__, Signer.__init__. run. intros _.
    rewrite lookup_insert_ne by done. by rewrite lookup_insert_eq.
Qed.

(** On a signer of any backend whose construction succeeded, whatever
    calls of the contract were made since, successful unlocks included,
    [is_unlocked] reads false; hence [sign_transaction] of the Host-Node
    and Local-Keyfile backends raises AccountLocked and changes nothing,
    and so does [sign_message] of the Host-Node backend. *)
Theorem is_unlocked_reads_false_after_any_calls `{Env}
    (b : backend) (arg : pyval) (σ0 : store) (ops : list op)
    (account : string) (transaction : list (string * pyval)) (message : pyval)
    (content_type validator_address : option string)
    (kwargs : list (string * pyval)) :
  fst (new b arg σ0) = Return () →
  let σ := perform_all b ops (snd (new b arg σ0)) in
  reads_unlocked σ = Some false
  ∧ (b ≠ Clef →
     sign_transaction b account transaction σ
     = (Raise (AccountLocked (Signer.locked_message account)), σ))
  ∧ (b = Web3 →
     sign_message b account message content_type validator_address kwargs σ
     = (Raise (AccountLocked (Signer.locked_message account)), σ)).
Proof.
  intros Hnew σ.
  assert (reads_unlocked σ = Some false) as Hlocked.
  { subst σ. rewrite perform_all_keeps_reading. by apply new_reads_locked. }
  destruct (locked_flag_lookup σ Hlocked) as (u & Hu & Hfalse).
  split_and!; [done| |].
  - intros Hb. destruct b; [| |done]; cbn [sign_transaction];
      unfold Web3Signer.sign_transaction, LocalSigner.sign_transaction,
        Signer.is_unlocked; run; by rewrite Hu, Hfalse.
  - intros ->. cbn [sign_message].
    unfold Web3Signer.sign_message, Signer.is_unlocked. run.
    by rewrite Hu, Hfalse.
Qed.

Lemma is_unlocked_reads_false_after_any_calls_witness :
  let σ := perform_all Local
             [OpUnlock "0xSoft" "secret" None;
              OpSignTransaction "0xSoft" test_transaction]
             (snd (new Local (VStr "keyfile.json") empty_store)) in
  reads_unlocked σ = Some false
  ∧ (Local ≠ Clef →
     sign_transaction Local "0xSoft" test_transaction σ
     = (Raise (AccountLocked (Signer.locked_message "0xSoft")), σ))
  ∧ (Local = Web3 →
     sign_message Local "0xSoft" (VBytes "hello") None None [] σ
     = (Raise (AccountLocked (Signer.locked_message "0xSoft")), σ)).
Proof.
  apply (is_unlocked_reads_false_after_any_calls
           Local (VStr "keyfile.json") empty_store
           [OpUnlock "0xSoft" "secret" None;
            OpSignTransaction "0xSoft" test_transaction]
           "0xSoft" test_transaction (VBytes "hello") None None []).
  reflexivity.
Defined.

(** ** LocalSigner: the key and its lifetime *)

(** When the configured keyfile is read and decrypts under the password,
    [unlock_account] of the Local-Keyfile backend returns [True], holds
    the decrypted key in the key attribute, marks the backend's own flag,
    issues no request, and still has the same keyfile configured. *)
Theorem LocalSigner_unlock_holds_decrypted_key `{Env}
    (account password : string) (duration : option Z)
    (path encrypted_key : string) (key : pyval) (σ : store) :
  self σ !! mangle LocalSigner.cls "__keyfile" = Some (VStr path) →
  read_file path = Return encrypted_key →
  decrypt encrypted_key password = Return key →
  let result := unlock_account Local account password duration σ in
  fst result = Return (VBool true)
  ∧ self (snd result) !! mangle LocalSigner.cls "__key" = Some key
  ∧ private_unlocked Local (snd result) = Some (VBool true)
  ∧ self (snd result) !! mangle LocalSigner.cls "__keyfile" = Some (VStr path)
  ∧ trace (snd result) = trace σ.
Proof.
  intros Hpath Hread Hdecrypt result. subst result.
  cbn [unlock_account]. unfold private_unlocked. cbn [class_name].
  unfold LocalSigner.unlock_account, LocalSigner.__import_keyfile,
    LocalSigner.open_read. run.
  rewrite Hpath, Hread, Hdecrypt. cbn [fst snd self trace].
  rewrite lookup_insert_eq. cbn [fst snd self trace].
  split_and!; try done.
  - rewrite lookup_insert_ne by done. apply lookup_insert_eq.
  - apply lookup_insert_eq.
  - by rewrite !lookup_insert_ne by done.
Qed.

Lemma LocalSigner_unlock_holds_decrypted_key_witness :
  let result := unlock_account Local "0xSoft" "secret" None (fresh Local) in
  fst result = Return (VBool true)
  ∧ self (snd result) !! mangle LocalSigner.cls "__key" = Some (VBytes "privkey")
  ∧ private_unlocked Local (snd result) = Some (VBool true)
  ∧ self (snd result) !! mangle LocalSigner.cls "__keyfile"
    = Some (VStr "keyfile.json")
  ∧ trace (snd result) = trace (fresh Local).
Proof.
  apply (LocalSigner_unlock_holds_decrypted_key
           "0xSoft" "secret" None "keyfile.json" "{crypto}" (VBytes "privkey")
           (fresh Local)); reflexivity.
Defined.

(** Locking after an unlock attempt leaves the signer exactly as locking
    alone does, for every backend and whether or not the unlock
    succeeded; for the Local-Keyfile backend the key attribute is then
    [None]: no key outlives [lock_account]. *)
Theorem lock_after_unlock_is_lock `{Env}
    (b : backend) (account account' password : string) (duration : option Z)
    (σ : store) :
  lock_account b account'
    (snd (unlock_account b account password duration σ))
  = lock_account b account' σ
  ∧ self (snd (lock_account Local account' σ)) !! mangle LocalSigner.cls "__key"
    = Some VNone.
Proof.
  split.
  - destruct b; cbn [unlock_account lock_account].
    + rewrite Web3Signer_unlock_account_eq, !Web3Signer_lock_account_eq.
      cbn [snd self trace]. by rewrite insert_insert_eq.
    + destruct (LocalSigner_unlock_account_cases account password duration σ)
        as [[e ->]|[key ->]]; [done|].
      rewrite !LocalSigner_lock_account_eq. cbn [snd self trace].
      rewrite (insert_insert_ne _ (mangle LocalSigner.cls "__key")
                 (mangle LocalSigner.cls "__unlocked")) by done.
      by rewrite !insert_insert_eq.
    + done.
  - rewrite LocalSigner_lock_account_eq. cbn [snd self].
    rewrite lookup_insert_ne by done. apply lookup_insert_eq.
Qed.

(** Calling [lock_account] twice is calling it once, and so is calling
    [unlock_account] twice with the same arguments: the second call gives
    the same answer and leaves the same store as the first. *)
Theorem lock_and_unlock_are_idempotent `{Env}
    (b : backend) (account password : string) (duration : option Z) (σ : store) :
  lock_account b account (snd (lock_account b account σ)) = lock_account b account σ
  ∧ unlock_account b account password duration
      (snd (unlock_account b account password duration σ))
    = unlock_account b account password duration σ.
Proof.
  split.
  - destruct b; cbn [lock_account].
    + rewrite !Web3Signer_lock_account_eq. cbn [snd self trace].
      by rewrite insert_insert_eq.
    + rewrite !LocalSigner_lock_account_eq. cbn [snd self trace].
      rewrite (insert_insert_ne _ (mangle LocalSigner.cls "__key")
                 (mangle LocalSigner.cls "__unlocked")) by done.
      by rewrite !insert_insert_eq.
    + done.
  - destruct b; cbn [unlock_account].
    + rewrite !Web3Signer_unlock_account_eq. cbn [snd self trace].
      by rewrite insert_insert_eq.
    + unfold LocalSigner.unlock_account, LocalSigner.__import_keyfile,
        LocalSigner.open_read. run.
      destruct (self σ !! mangle LocalSigner.cls "__keyfile") as [path|] eqn:Hpath;
        cbn [fst snd self trace]; [|by rewrite Hpath].
      destruct path; cbn [fst snd self trace]; try by rewrite Hpath.
      destruct (read_file s) as [enc|e] eqn:Hread; cbn [fst snd self trace];
        [|destruct e; cbn [fst snd self trace]; by rewrite Hpath, Hread].
      destruct (decrypt enc password) as [key|e] eqn:Hdecrypt;
        cbn [fst snd self trace];
        [|destruct e; cbn [fst snd self trace]; by rewrite Hpath, Hread, Hdecrypt].
      rewrite !lookup_insert_eq. cbn [fst snd self trace].
      rewrite !lookup_insert_ne by done. rewrite Hpath. cbn [fst snd self trace].
      rewrite Hread, Hdecrypt. cbn [fst snd self trace].
      rewrite !lookup_insert_eq. cbn [fst snd self trace].
      rewrite (insert_insert_ne _ (mangle LocalSigner.cls "__key")
                 (mangle LocalSigner.cls "__unlocked")) by done.
      by rewrite !insert_insert_eq.
    + done.
Qed.

(** ** Requests issued by a call *)

Section Requests.
Context `{Env}.

Lemma keeps_trace_ret {A} (a : A) : keeps_trace (ret a).
Proof. done. Qed.

Lemma keeps_trace_raise {A} e : keeps_trace (@raise A e).
Proof. done. Qed.

Lemma keeps_trace_lift {A} (o : outcome A) : keeps_trace (lift o).
Proof. done. Qed.

Lemma keeps_trace_getattr name : keeps_trace (getattr name).
Proof. intros σ. unfold getattr. by destruct (self σ !! name). Qed.

Lemma keeps_trace_setattr name v : keeps_trace (setattr name v).
Proof. done. Qed.

Lemma keeps_trace_bind {A B} (m : M A) (k : A → M B) :
  keeps_trace m → (∀ a, keeps_trace (k a)) → keeps_trace (bind m k).
Proof.
  intros Hm Hk σ. unfold bind. specialize (Hm σ).
  destruct (m σ) as [[a|e] σ']; cbn [snd] in *; [|done].
  by rewrite Hk.
Qed.

Lemma keeps_trace_try_except {A} (m : M A) (h : exn → M A) :
  keeps_trace m → (∀ e, keeps_trace (h e)) → keeps_trace (try_except m h).
Proof.
  intros Hm Hh σ. unfold try_except. specialize (Hm σ).
  destruct (m σ) as [[a|e] σ']; cbn [snd] in *; [done|].
  by rewrite Hh.
Qed.

Lemma keeps_trace_sends_at_most {A} n (m : M A) :
  keeps_trace m → sends_at_most n m.
Proof.
  intros Hm σ. exists []. split; [|cbn; lia].
  rewrite Hm. symmetry. apply app_nil_r.
Qed.

Lemma sends_at_most_invoke c : sends_at_most 1 (invoke c).
Proof. intros σ. exists [c]. by split. Qed.

Lemma sends_at_most_bind_l {A B} n (m : M A) (k : A → M B) :
  keeps_trace m → (∀ a, sends_at_most n (k a)) → sends_at_most n (bind m k).
Proof.
  intros Hm Hk σ. unfold bind. specialize (Hm σ).
  destruct (m σ) as [[a|e] σ']; cbn [snd] in *.
  - rewrite <- Hm. apply Hk.
  - exists []. split; [|cbn; lia]. rewrite Hm. symmetry. apply app_nil_r.
Qed.

Lemma sends_at_most_bind_r {A B} n (m : M A) (k : A → M B) :
  sends_at_most n m → (∀ a, keeps_trace (k a)) → sends_at_most n (bind m k).
Proof.
  intros Hm Hk σ. unfold bind. specialize (Hm σ).
  destruct (m σ) as [[a|e] σ']; cbn [snd] in *; [|done].
  by rewrite Hk.
Qed.

End Requests.

(** Closes a goal [keeps_trace m] for a method body without requests. *)
Ltac keeps_trace_steps :=
  repeat first
    [ apply keeps_trace_bind; [|intros ?]
    | apply keeps_trace_try_except; [|intros ?]
    | apply keeps_trace_getattr | apply keeps_trace_setattr
    | apply keeps_trace_lift | apply keeps_trace_raise | apply keeps_trace_ret
    | case_match ].

(** Closes a goal [sends_at_most 1 m] for a method body. *)
Ltac sends_at_most_steps :=
  repeat first
    [ solve [apply keeps_trace_sends_at_most; keeps_trace_steps]
    | apply sends_at_most_invoke
    | apply sends_at_most_bind_l; [solve [keeps_trace_steps]|intros ?]
    | apply sends_at_most_bind_r; [|intros ?; solve [keeps_trace_steps]]
    | case_match ].

Lemma perform_Local_keeps_trace `{Env} o : keeps_trace (perform Local o).
Proof.
  destruct o; cbn [perform accounts unlock_account lock_account
                     sign_transaction sign_message];
    unfold LocalSigner.accounts, LocalSigner.unlock_account,
      LocalSigner.__import_keyfile, LocalSigner.open_read,
      LocalSigner.lock_account, LocalSigner.sign_transaction,
      LocalSigner.sign_message, Signer.is_unlocked;
    keeps_trace_steps.
Qed.

(** No call on the Local-Keyfile backend issues a request: the trace
    after any of its five methods is the trace before. *)
Theorem LocalSigner_issues_no_request `{Env} (o : op) (σ : store) :
  trace (snd (perform Local o σ)) = trace σ.
Proof. apply perform_Local_keeps_trace. Qed.

(** Every call of the contract, on every backend, only appends to the
    trace of requests, and appends at most one: nothing is retried and
    nothing already issued is lost. *)
Theorem every_call_issues_at_most_one_request `{Env}
    (b : backend) (o : op) (σ : store) :
  ∃ l, trace (snd (perform b o σ)) = (trace σ ++ l)%list ∧ (List.length l ≤ 1)%nat.
Proof.
  revert σ. change (sends_at_most 1 (perform b o)).
  destruct b.
  - destruct o; cbn [perform accounts unlock_account lock_account
                       sign_transaction sign_message];
      unfold Web3Signer.accounts, Web3Signer.unlock_account,
        Web3Signer.lock_account, Web3Signer.self_is_device,
        Web3Signer.sign_transaction, Web3Signer.sign_message,
        Signer.is_unlocked;
      sends_at_most_steps.
  - apply keeps_trace_sends_at_most, perform_Local_keeps_trace.
  - destruct o; cbn [perform accounts unlock_account lock_account
                       sign_transaction sign_message];
      unfold ClefSigner.accounts, ClefSigner.unlock_account,
        ClefSigner.lock_account, ClefSigner.sign_transaction,
        ClefSigner.sign_message;
      sends_at_most_steps.
Qed.

(** ** Web3Signer.is_device *)

Lemma mapM_total {A B} (f : A → outcome B) l :
  (∀ x, x ∈ l → ∃ y, f x = Return y) → ∃ ys, mapM f l = Return ys.
Proof.
  induction l as [|x l IH]; intros Hf; [by eexists|].
  destruct (Hf x) as [y Hy]; [by left|].
  destruct IH as [ys Hys]; [intros x' Hx'; apply Hf; by right|].
  exists (y :: ys). cbn [mapM]. by rewrite Hy, Hys.
Qed.

Lemma mapM_elem_of {A B} (f : A → outcome B) l ys y :
  mapM f l = Return ys → y ∈ ys ↔ ∃ x, x ∈ l ∧ f x = Return y.
Proof.
  revert ys. induction l as [|x l IH]; intros ys.
  - intros [= <-]. split.
    + intros Hin. by apply elem_of_nil in Hin.
    + intros (x & Hin & _). by apply elem_of_nil in Hin.
  - cbn [mapM]. destruct (f x) as [y'|e] eqn:Hx; [|done].
    destruct (mapM f l) as [ys'|e]; [|done].
    intros [= <-]. rewrite elem_of_cons, (IH ys' eq_refl). split.
    + intros [->|(x' & Hin & Hx')].
      * exists x. split; [by left|done].
      * exists x'. split; [by right|done].
    + intros (x' & Hin & Hx'). apply elem_of_cons in Hin as [->|Hin].
      * left. congruence.
      * right. eauto.
Qed.

(** The first hardware address the list comprehension cannot convert
    makes [mapM] raise. *)
Lemma mapM_raises {A B} (f : A → outcome B) l x e :
  x ∈ l → f x = Raise e → ∃ e', mapM f l = Raise e'.
Proof.
  induction l as [|x' l IH]; intros Hin Hx; [by apply elem_of_nil in Hin|].
  cbn [mapM]. destruct (f x') as [y|e'] eqn:Hx'; [|by eexists].
  apply elem_of_cons in Hin as [->|Hin]; [congruence|].
  destruct (IH Hin Hx) as [e'' ->]. by eexists.
Qed.

Lemma hardware_addresses_elem_of (ws : list wallet) a :
  a ∈ concat (w_accounts <$>
                List.filter (λ w, Web3Signer.startswith (w_url w)
                                    Web3Signer.HW_WALLET_URL_PREFIXES) ws)
  ↔ ∃ w, w ∈ ws
         ∧ Web3Signer.startswith (w_url w) Web3Signer.HW_WALLET_URL_PREFIXES = true
         ∧ a ∈ w_accounts w.
Proof.
  rewrite list_elem_of_In, in_concat. split.
  - intros (l & Hl & Ha). apply list_elem_of_In, list_elem_of_fmap in Hl
      as (w & -> & Hw). apply list_elem_of_In, filter_In in Hw as [Hw Hhw].
    exists w. by rewrite !list_elem_of_In.
  - intros (w & Hw & Hhw & Ha). exists (w_accounts w). split.
    + apply list_elem_of_In, list_elem_of_fmap. exists w. split; [done|].
      apply list_elem_of_In, filter_In. by rewrite <- list_elem_of_In.
    + by apply list_elem_of_In.
Qed.

(** When every address listed under a hardware wallet has a checksum
    form, the body of [is_device] answers a boolean and changes nothing;
    the answer is true exactly when the client has the wallets
    capability and the account is the checksum form of an address
    listed by a wallet whose URL starts with [trezor] or [ledger].
    Wallets with other URLs and a client without the capability give
    [False]. *)
Theorem is_device_answers_hardware_membership `{Env}
    (account : string) (client : pyval) (σ : store) :
  self σ !! mangle Web3Signer.cls "__client" = Some client →
  (∀ ws w a, wallets = Some ws → w ∈ ws →
     Web3Signer.startswith (w_url w) Web3Signer.HW_WALLET_URL_PREFIXES = true →
     a ∈ w_accounts w → ∃ c, to_checksum_address a = Return c) →
  ∃ d : bool,
    Web3Signer.is_device account σ = (Return (VBool d), σ)
    ∧ (d = true ↔ ∃ ws, wallets = Some ws ∧ hardware_listed ws account).
Proof.
  intros Hclient Hsum. unfold Web3Signer.is_device. run. rewrite Hclient.
  destruct wallets as [ws|] eqn:Hws.
  - destruct (mapM_total to_checksum_address
                (concat (w_accounts <$>
                   List.filter (λ w, Web3Signer.startswith (w_url w)
                                       Web3Signer.HW_WALLET_URL_PREFIXES) ws)))
      as [addrs Haddrs].
    { intros a Ha. apply hardware_addresses_elem_of in Ha as (w & Hw & Hhw & Ha).
      by apply (Hsum ws w a). }
    rewrite Haddrs. eexists. split; [done|].
    rewrite bool_decide_eq_true, (mapM_elem_of _ _ _ _ Haddrs). split.
    + intros (a & Ha & Hc). exists ws. split; [done|].
      apply hardware_addresses_elem_of in Ha as (w & Hw & Hhw & Ha).
      by exists w, a.
    + intros (ws' & [= <-] & w & a & Hw & Hhw & Ha & Hc).
      exists a. split; [|done]. apply hardware_addresses_elem_of. eauto.
  - exists false. split; [done|]. split; [done|]. by intros (ws & ? & _).
Qed.

Lemma is_device_answers_hardware_membership_witness :
  ∃ d : bool,
    Web3Signer.is_device "0xDev" (fresh Web3) = (Return (VBool d), fresh Web3)
    ∧ (d = true ↔ ∃ ws, wallets = Some ws ∧ hardware_listed ws "0xDev").
Proof.
  apply (is_device_answers_hardware_membership "0xDev" (VObj "client") (fresh Web3)).
  - reflexivity.
  - intros ws w a _ _ _ _. by exists a.
Defined.

(** One listed hardware address without a checksum form makes the body
    of [is_device] raise for every account, matching or not: all of the
    hardware addresses are converted before the account is looked up. *)
Theorem is_device_raises_on_bad_hardware_address `{Env}
    (account : string) (client : pyval) (σ : store)
    (ws : list wallet) (w : wallet) (a : string) (e : exn) :
  self σ !! mangle Web3Signer.cls "__client" = Some client →
  wallets = Some ws → w ∈ ws →
  Web3Signer.startswith (w_url w) Web3Signer.HW_WALLET_URL_PREFIXES = true →
  a ∈ w_accounts w → to_checksum_address a = Raise e →
  ∃ e', Web3Signer.is_device account σ = (Raise e', σ).
Proof.
  intros Hclient Hws Hw Hhw Ha He. unfold Web3Signer.is_device. run.
  rewrite Hclient, Hws.
  destruct (mapM_raises to_checksum_address
              (concat (w_accounts <$>
                 List.filter (λ w, Web3Signer.startswith (w_url w)
                                     Web3Signer.HW_WALLET_URL_PREFIXES) ws)) a e)
    as [e' ->]; [|done|by eexists].
  apply hardware_addresses_elem_of. eauto.
Qed.

Lemma is_device_raises_on_bad_hardware_address_witness :
  ∃ e', @Web3Signer.is_device bad_wallet_env "0xDev" (fresh Web3)
        = (Raise e', fresh Web3).
Proof.
  apply (@is_device_raises_on_bad_hardware_address bad_wallet_env
           "0xDev" (VObj "client") (fresh Web3)
           [Wallet "trezor://0002" ["0xDev"; "not-an-address"]]
           (Wallet "trezor://0002" ["0xDev"; "not-an-address"])
           "not-an-address" (ValueError "invalid address")).
  - reflexivity.
  - reflexivity.
  - by left.
  - reflexivity.
  - cbn [w_accounts]. right. by left.
  - reflexivity.
Defined.

(** ** ClefSigner: what reaches the daemon *)

(** The last stage of [ClefSigner.sign_message] raises before sending
    only when the signer has no [w3] attribute. *)
Lemma ClefSigner_sign_message_request_or_raise `{Env} account ct data σ :
  let last :=
    (_ <- getattr "w3" ;;
     invoke (request_blocking "account_signData" [VStr ct; VStr account; data])) in
  (∃ e, last σ = (Raise e, σ))
  ∨ last σ = (respond (sign_data_request ct account data),
              Store (self σ) (trace σ ++ [sign_data_request ct account data])).
Proof.
  intros last. subst last.
  destruct (self σ !! "w3") as [w|] eqn:Hw3.
  - right. by apply ClefSigner_sign_message_request with (w := w).
  - left. run. rewrite Hw3. eauto.
Qed.

(** Whatever its arguments and the signer's state, [sign_message] of the
    External-Signer backend either raises with nothing sent and nothing
    changed, or issues one [account_signData] request of one of two
    shapes: [text/plain] with the message itself, or [data/validator]
    with the pair of a non-empty, non-zero validator address and the
    message.  No other content type and no validator request without an
    address ever reaches the daemon. *)
Theorem ClefSigner_sign_message_sends_only_two_shapes `{Env}
    (account : string) (message : pyval)
    (content_type validator_address : option string)
    (kwargs : list (string * pyval)) (σ : store) :
  let call_it :=
    sign_message Clef account message content_type validator_address kwargs in
  (∃ e, call_it σ = (Raise e, σ))
  ∨ sends call_it σ
      (sign_data_request ClefSigner.SIGN_DATA_FOR_ECRECOVER account message)
  ∨ (∃ a, validator_address = Some a ∧ a ≠ EmptyString ∧ a ≠ NULL_ADDRESS
          ∧ content_type = Some ClefSigner.SIGN_DATA_FOR_VALIDATOR
          ∧ sends call_it σ
              (sign_data_request ClefSigner.SIGN_DATA_FOR_VALIDATOR account
                 (VList [VStr a; message]))).
Proof.
  intros call_it. subst call_it. cbn [sign_message]. unfold sends.
  destruct (truthy_opt content_type) eqn:Hgiven.
  2: { rewrite ClefSigner_sign_message_default by done.
       destruct (ClefSigner_sign_message_request_or_raise
                   account ClefSigner.SIGN_DATA_FOR_ECRECOVER message σ)
         as [?|?]; [by left|by right; left]. }
  destruct content_type as [ct|]; [|done].
  assert (ct ≠ EmptyString) as Hne by (by intros ->).
  destruct (decide (ct ∈ ClefSigner.SIGN_DATA_CONTENT_TYPES)) as [Hin|Hout].
  2: { left. unfold ClefSigner.sign_message. rewrite Hgiven. cbn [negb default].
       rewrite bool_decide_eq_false_2 by done. eauto. }
  rewrite ClefSigner_sign_message_given by done.
  apply recognized_content_types in Hin as [-> | [-> | ->]].
  - rewrite String.eqb_refl.
    destruct (negb (truthy_opt validator_address)
              || bool_decide (validator_address = Some NULL_ADDRESS)) eqn:Hbad.
    + left. eauto.
    + apply orb_false_iff in Hbad as [Hva Hzero].
      apply negb_false_iff in Hva.
      destruct validator_address as [a|]; [|done].
      apply bool_decide_eq_false in Hzero.
      rewrite bind_ret_l. cbn [default].
      destruct (ClefSigner_sign_message_request_or_raise
                  account ClefSigner.SIGN_DATA_FOR_VALIDATOR
                  (VList [VStr a; message]) σ) as [?|?]; [by left|].
      right. right. exists a. split_and!; [done|by intros ->|congruence|done|done].
  - left. eauto.
  - change (String.eqb ClefSigner.SIGN_DATA_FOR_ECRECOVER
              ClefSigner.SIGN_DATA_FOR_VALIDATOR) with false.
    rewrite String.eqb_refl. cbv iota. rewrite bind_ret_l.
    destruct (ClefSigner_sign_message_request_or_raise
                account ClefSigner.SIGN_DATA_FOR_ECRECOVER message σ)
      as [?|?]; [by left|by right; left].
Qed.

(** Naming the default content type is the same as omitting it, and
    under it neither the validator address nor further keyword arguments
    matter. *)
Theorem ClefSigner_explicit_ecrecover_is_default `{Env}
    (account : string) (message : pyval)
    (validator_address validator_address' : option string)
    (kwargs kwargs' : list (string * pyval)) :
  sign_message Clef account message (Some ClefSigner.SIGN_DATA_FOR_ECRECOVER)
    validator_address kwargs
  = sign_message Clef account message None validator_address' kwargs'.
Proof.
  cbn [sign_message].
  rewrite ClefSigner_sign_message_given
    by (done || apply recognized_content_types; auto).
  rewrite ClefSigner_sign_message_default by done.
  change (String.eqb ClefSigner.SIGN_DATA_FOR_ECRECOVER
            ClefSigner.SIGN_DATA_FOR_VALIDATOR) with false.
  rewrite String.eqb_refl. cbv iota. by rewrite bind_ret_l.
Qed.

(** Whatever the transaction and the signer's state, [sign_transaction]
    of the External-Signer backend either raises with nothing sent and
    nothing changed, or has issued exactly one [account_signTransaction]
    request, and that request carries the formatted transaction: a
    transaction is never sent as the caller wrote it when a field needs
    formatting. *)
Theorem ClefSigner_sign_transaction_sends_only_formatted `{Env}
    (account : string) (transaction : list (string * pyval)) (σ : store) :
  (∃ e, sign_transaction Clef account transaction σ = (Raise e, σ))
  ∨ (∃ formatted,
       Forall2 formatted_item transaction formatted
       ∧ snd (sign_transaction Clef account transaction σ)
         = Store (self σ)
             (trace σ ++ [request_blocking "account_signTransaction"
                            [VDict formatted]])).
Proof.
  cbn [sign_transaction]. unfold ClefSigner.sign_transaction. run.
  destruct (apply_formatters_to_dict ClefSigner.formatters transaction)
    as [formatted|e] eqn:Hfmt; [|left; eauto].
  destruct (self σ !! "w3") as [w|]; [|left; eauto].
  right. exists formatted.
  split; [by apply apply_formatters_to_dict_items|].
  by repeat case_match.
Qed.

(** A transaction with a nonce, gasPrice, gas, value or chainId that
    [Web3.toHex] rejects, or a from that [to_normalized_address]
    rejects, is not sent: [sign_transaction] raises and neither the
    trace nor the signer changes. *)
Theorem ClefSigner_sign_transaction_rejected_field_not_sent `{Env}
    (account : string) (transaction : list (string * pyval))
    (key : string) (item : pyval) (e : exn) (σ : store) :
  (key, item) ∈ transaction →
  (key ∈ numeric_fields ∧ toHex item = Raise e)
  ∨ (key = "from" ∧ to_normalized_address item = Raise e) →
  ∃ e', sign_transaction Clef account transaction σ = (Raise e', σ).
Proof.
  intros Hin Hbad.
  destruct (apply_formatters_to_dict_raises transaction key item e Hin Hbad)
    as [e' Hfmt].
  exists e'. cbn [sign_transaction]. unfold ClefSigner.sign_transaction. run.
  by rewrite Hfmt.
Qed.

Lemma ClefSigner_sign_transaction_rejected_field_not_sent_witness :
  ∃ e', sign_transaction Clef "0xAbCd"
          [("nonce", VStr "five"); ("to", VStr "0xEf01")] (fresh Clef)
        = (Raise e', fresh Clef).
Proof.
  apply (ClefSigner_sign_transaction_rejected_field_not_sent
           "0xAbCd" [("nonce", VStr "five"); ("to", VStr "0xEf01")]
           "nonce" (VStr "five") (TypeError "unsupported type") (fresh Clef)).
  - by left.
  - left. split; [|reflexivity]. unfold numeric_fields. by left.
Defined.

(** When the daemon answers the request with an object that has a [raw]
    field, [sign_transaction] returns [HexBytes] of that field; when the
    daemon raises, that error is raised; the account argument does not
    reach the daemon. *)
Theorem ClefSigner_sign_transaction_returns_raw `{Env}
    (account : string) (transaction formatted : list (string * pyval))
    (w : pyval) (σ : store) :
  self σ !! "w3" = Some w →
  apply_formatters_to_dict ClefSigner.formatters transaction = Return formatted →
  let request := request_blocking "account_signTransaction" [VDict formatted] in
  (∀ signed raw, respond request = Return signed →
                 getfield signed "raw" = Return raw →
                 fst (sign_transaction Clef account transaction σ) = HexBytes raw)
  ∧ (∀ e, respond request = Raise e →
          fst (sign_transaction Clef account transaction σ) = Raise e).
Proof.
  intros Hw3 Hfmt request. subst request.
  cbn [sign_transaction]. unfold ClefSigner.sign_transaction. run.
  rewrite Hfmt, Hw3. split.
  - intros signed raw -> Hraw. cbn [fst snd]. by rewrite Hraw.
  - by intros e ->.
Qed.

Lemma ClefSigner_sign_transaction_returns_raw_witness :
  fst (sign_transaction Clef "0xAbCd" [("nonce", VInt 5)] (fresh Clef))
  = HexBytes (VBytes "rawtx").
Proof.
  refine (proj1 (ClefSigner_sign_transaction_returns_raw
                   "0xAbCd" [("nonce", VInt 5)] [("nonce", VStr "0x5")]
                   (VObj "w3") (fresh Clef) _ _)
                (VDict [("raw", VBytes "rawtx")]) (VBytes "rawtx") _ _);
    reflexivity.
Defined.

(** ** ClefSigner.accounts *)





(** ** Signing in a store whose flag reads true *)

Lemma unlocked_flag_lookup σ :
  reads_unlocked σ = Some true →
  ∃ v, self σ !! mangle Signer.cls "__unlocked" = Some v ∧ truthy v = true.
Proof.
  rewrite reads_unlocked_lookup.
  destruct (self σ !! mangle Signer.cls "__unlocked") as [v|]; [|done].
  intros [= Hv]. eauto.
Qed.

(** In a store where [is_unlocked] reads true and the client is set, the
    Host-Node backend's [sign_transaction] issues one client
    sign-transaction request carrying the caller's transaction as it is
    (the account is not forwarded) and returns the client's answer;
    [sign_message] issues one client sign-message request with the account
    and the message, ignores the keyword arguments, and returns
    [HexBytes] of the client's signature, or raises the client's error. *)
Theorem Web3Signer_signs_through_client `{Env}
    (account : string) (transaction : list (string * pyval)) (message : pyval)
    (kwargs : list (string * pyval)) (client : pyval) (σ : store) :
  reads_unlocked σ = Some true →
  self σ !! mangle Web3Signer.cls "__client" = Some client →
  sends (Web3Signer.sign_transaction account transaction) σ
    (client_sign_transaction transaction)
  ∧ Web3Signer.sign_message account message kwargs σ
    = (match respond (client_sign_message account message) with
       | Return signature => HexBytes signature
       | Raise e => Raise e
       end,
       Store (self σ) (trace σ ++ [client_sign_message account message])).
Proof.
  intros Hunlocked Hclient.
  destruct (unlocked_flag_lookup σ Hunlocked) as (u & Hu & Htrue).
  split.
  - unfold sends, Web3Signer.sign_transaction, Signer.is_unlocked. run.
    rewrite Hu, Htrue. cbn [negb]. by rewrite Hclient.
  - unfold Web3Signer.sign_message, Signer.is_unlocked. run.
    rewrite Hu, Htrue. cbn [negb]. rewrite Hclient. cbn [fst snd self trace].
    by destruct (respond (client_sign_message account message)).
Qed.

Lemma Web3Signer_signs_through_client_witness :
  sends (Web3Signer.sign_transaction "0xSoft" test_transaction)
    (with_flag (VBool true) (fresh Web3)) (client_sign_transaction test_transaction).
Proof.
  refine (proj1 (Web3Signer_signs_through_client
                   "0xSoft" test_transaction (VBytes "hello") [] (VObj "client")
                   (with_flag (VBool true) (fresh Web3)) _ _)); reflexivity.
Defined.

(** In a store where [is_unlocked] reads true, the Local-Keyfile
    backend's [sign_transaction] signs the caller's transaction with
    whatever the key attribute holds and returns the [rawTransaction]
    entry of the result, issuing no request and changing nothing; a
    signing error is raised as it is. *)
Theorem LocalSigner_signs_with_held_key `{Env}
    (account : string) (transaction : list (string * pyval))
    (key : pyval) (σ : store) :
  reads_unlocked σ = Some true →
  self σ !! mangle LocalSigner.cls "__key" = Some key →
  LocalSigner.sign_transaction account transaction σ
  = (match account_sign_transaction transaction key with
     | Return signed => getitem signed "rawTransaction"
     | Raise e => Raise e
     end, σ).
Proof.
  intros Hunlocked Hkey.
  destruct (unlocked_flag_lookup σ Hunlocked) as (u & Hu & Htrue).
  unfold LocalSigner.sign_transaction, Signer.is_unlocked. run.
  rewrite Hu, Htrue. cbn [negb]. rewrite Hkey. cbn [fst snd self trace].
  by destruct (account_sign_transaction transaction key).
Qed.

Lemma LocalSigner_signs_with_held_key_witness :
  LocalSigner.sign_transaction "0xSoft" test_transaction
    (with_flag (VBool true)
       (snd (unlock_account Local "0xSoft" "secret" None (fresh Local))))
  = (match account_sign_transaction test_transaction (VBytes "privkey") with
     | Return signed => getitem signed "rawTransaction"
     | Raise e => Raise e
     end,
     with_flag (VBool true)
       (snd (unlock_account Local "0xSoft" "secret" None (fresh Local)))).
Proof.
  apply (LocalSigner_signs_with_held_key
           "0xSoft" test_transaction (VBytes "privkey")
           (with_flag (VBool true)
              (snd (unlock_account Local "0xSoft" "secret" None (fresh Local)))));
    reflexivity.
Defined.
